(** * autobrr: action macro resolution and the Pushover notification sender

    A shallow embedding of
      - [internal/domain/action.go]          (package [domain])
      - [internal/notification/pushover.go]  (package [notification])
    together with the properties of the action execution engine that the
    specification states about them.

    Conventions.  Go [int], [int32] and [int64] values are carried as [Z];
    none of the code below does arithmetic on them.  A Go [string] is a
    [string], a [[]byte] is a [list Byte.byte].  A Go [error] value is [option
    error], [None] being [nil].  Pointer receivers ([*Action], [*Release])
    are modelled by a store that holds the object each pointer designates;
    calls into code outside the two files are parameters of a [Section]. *)

From Stdlib Require Import ZArith String Ascii List Bool Floats.PrimFloat.
From stdpp Require Import base gmap strings list pretty.

Local Open Scope string_scope.
Local Open Scope Z_scope.
Local Open Scope list_scope.

(** ** Package [errors]

    [pkg/errors] builds an error from a message or wraps a cause with a
    message.  Formatted messages are kept as the format's prefix followed by
    the rendered argument. *)

Inductive error : Type :=
| errors_New (msg : string)
| errors_Wrap (cause : error) (msg : string).

(** [strings.Contains(s, substr)]: some suffix of [s] starts with [substr]. *)
Fixpoint Contains (s substr : string) : bool :=
  String.prefix substr s ||
  match s with
  | EmptyString => false
  | String _ s' => Contains s' substr
  end.

Module domain.

(** *** [type ActionType string] and its declared constants *)

Definition ActionType := string.

Definition ActionTypeTest         : ActionType := "TEST".
Definition ActionTypeExec         : ActionType := "EXEC".
Definition ActionTypeQbittorrent  : ActionType := "QBITTORRENT".
Definition ActionTypeDelugeV1     : ActionType := "DELUGE_V1".
Definition ActionTypeDelugeV2     : ActionType := "DELUGE_V2".
Definition ActionTypeRTorrent     : ActionType := "RTORRENT".
Definition ActionTypeTransmission : ActionType := "TRANSMISSION".
Definition ActionTypePorla        : ActionType := "PORLA".
Definition ActionTypeWatchFolder  : ActionType := "WATCH_FOLDER".
Definition ActionTypeWebhook      : ActionType := "WEBHOOK".
Definition ActionTypeRadarr       : ActionType := "RADARR".
Definition ActionTypeSonarr       : ActionType := "SONARR".
Definition ActionTypeLidarr       : ActionType := "LIDARR".
Definition ActionTypeWhisparr     : ActionType := "WHISPARR".
Definition ActionTypeReadarr      : ActionType := "READARR".
Definition ActionTypeSabnzbd      : ActionType := "SABNZBD".

(** The constants of the [const ( ... )] block, in declaration order. *)
Definition ActionType_constants : list ActionType :=
  [ ActionTypeTest; ActionTypeExec; ActionTypeQbittorrent; ActionTypeDelugeV1;
    ActionTypeDelugeV2; ActionTypeRTorrent; ActionTypeTransmission;
    ActionTypePorla; ActionTypeWatchFolder; ActionTypeWebhook; ActionTypeRadarr;
    ActionTypeSonarr; ActionTypeLidarr; ActionTypeWhisparr; ActionTypeReadarr;
    ActionTypeSabnzbd ].

(** *** [type ActionContentLayout string] *)

Definition ActionContentLayout := string.

Definition ActionContentLayoutOriginal        : ActionContentLayout := "ORIGINAL".
Definition ActionContentLayoutSubfolderNone   : ActionContentLayout := "SUBFOLDER_NONE".
Definition ActionContentLayoutSubfolderCreate : ActionContentLayout := "SUBFOLDER_CREATE".

(** [*DownloadClient]: the struct is declared outside [action.go]; an Action
    only holds a nullable pointer to it, kept here as an address. *)
Definition DownloadClientPtr := N.

(** *** [type Action struct]

    [Type] is a reserved word, the field is spelled [Type_]. *)
Record Action : Type := mkAction {
  ID                       : Z;
  Name                     : string;
  Type_                    : ActionType;
  Enabled                  : bool;
  ExecCmd                  : string;
  ExecArgs                 : string;
  WatchFolder              : string;
  Category                 : string;
  Tags                     : string;
  Label                    : string;
  SavePath                 : string;
  Paused                   : bool;
  IgnoreRules              : bool;
  SkipHashCheck            : bool;
  ContentLayout            : ActionContentLayout;
  LimitUploadSpeed         : Z;
  LimitDownloadSpeed       : Z;
  LimitRatio               : float;
  LimitSeedTime            : Z;
  ReAnnounceSkip           : bool;
  ReAnnounceDelete         : bool;
  ReAnnounceInterval       : Z;
  ReAnnounceMaxAttempts    : Z;
  WebhookHost              : string;
  WebhookType              : string;
  WebhookMethod            : string;
  WebhookData              : string;
  WebhookHeaders           : list string;
  ExternalDownloadClientID : Z;
  FilterID                 : Z;
  ClientID                 : Z;
  Client                   : option DownloadClientPtr
}.

(** *** The declaration of [Action] read as data

    The Go types the fields of [Action] are declared with. *)
Inductive GoType : Type :=
| TInt | TInt32 | TInt64 | TFloat64 | TBool | TString | TStrings
| TActionType | TActionContentLayout | TDownloadClientPtr.

(** A field's value, tagged with the Go type the field is declared with. *)
Inductive GoValue : Type :=
| VInt (z : Z)
| VInt32 (z : Z)
| VInt64 (z : Z)
| VFloat64 (f : float)
| VBool (b : bool)
| VString (s : string)
| VStrings (l : list string)
| VActionType (t : ActionType)
| VActionContentLayout (l : ActionContentLayout)
| VDownloadClientPtr (p : option DownloadClientPtr).

Definition typeOf (v : GoValue) : GoType :=
  match v with
  | VInt _ => TInt
  | VInt32 _ => TInt32
  | VInt64 _ => TInt64
  | VFloat64 _ => TFloat64
  | VBool _ => TBool
  | VString _ => TString
  | VStrings _ => TStrings
  | VActionType _ => TActionType
  | VActionContentLayout _ => TActionContentLayout
  | VDownloadClientPtr _ => TDownloadClientPtr
  end.

(** The integers an integer type holds: [int32] and [int64] are 32 and 64
    bits wide, two's complement; [int] has the width of the platform's word,
    64 bits at most.  The other types put no bound on the model's values. *)
Definition inRange (v : GoValue) : bool :=
  match v with
  | VInt z | VInt64 z =>
      (-9223372036854775808 <=? z)%Z && (z <=? 9223372036854775807)%Z
  | VInt32 z => (-2147483648 <=? z)%Z && (z <=? 2147483647)%Z
  | _ => true
  end.

(** The fields of [type Action struct], in declaration order: each field's
    name with its value at the type it is declared with. *)
Definition Action_values (a : Action) : list (string * GoValue) :=
  [ ("ID", VInt (ID a));
    ("Name", VString (Name a));
    ("Type", VActionType (Type_ a));
    ("Enabled", VBool (Enabled a));
    ("ExecCmd", VString (ExecCmd a));
    ("ExecArgs", VString (ExecArgs a));
    ("WatchFolder", VString (WatchFolder a));
    ("Category", VString (Category a));
    ("Tags", VString (Tags a));
    ("Label", VString (Label a));
    ("SavePath", VString (SavePath a));
    ("Paused", VBool (Paused a));
    ("IgnoreRules", VBool (IgnoreRules a));
    ("SkipHashCheck", VBool (SkipHashCheck a));
    ("ContentLayout", VActionContentLayout (ContentLayout a));
    ("LimitUploadSpeed", VInt64 (LimitUploadSpeed a));
    ("LimitDownloadSpeed", VInt64 (LimitDownloadSpeed a));
    ("LimitRatio", VFloat64 (LimitRatio a));
    ("LimitSeedTime", VInt64 (LimitSeedTime a));
    ("ReAnnounceSkip", VBool (ReAnnounceSkip a));
    ("ReAnnounceDelete", VBool (ReAnnounceDelete a));
    ("ReAnnounceInterval", VInt64 (ReAnnounceInterval a));
    ("ReAnnounceMaxAttempts", VInt64 (ReAnnounceMaxAttempts a));
    ("WebhookHost", VString (WebhookHost a));
    ("WebhookType", VString (WebhookType a));
    ("WebhookMethod", VString (WebhookMethod a));
    ("WebhookData", VString (WebhookData a));
    ("WebhookHeaders", VStrings (WebhookHeaders a));
    ("ExternalDownloadClientID", VInt32 (ExternalDownloadClientID a));
    ("FilterID", VInt (FilterID a));
    ("ClientID", VInt32 (ClientID a));
    ("Client", VDownloadClientPtr (Client a)) ].

(** An Action a Go program can hold: every integer field within the range
    of its type. *)
Definition wellTyped (a : Action) : bool :=
  forallb (fun nv => inRange (snd nv)) (Action_values a).

(** The fields of an Action whose name starts with [ReAnnounce]. *)
Definition reannounce (a : Action) : list (string * GoValue) :=
  List.filter (fun nv => String.prefix "ReAnnounce" (fst nv)) (Action_values a).

(** [Release]: the struct is declared in [release.go], outside these files.
    The record has the fields [ParseMacros] reads or writes, and the source
    locator the download starts from. *)
Record Release : Type := mkRelease {
  TorrentName         : string;
  TorrentURL          : string;
  TorrentTmpFile      : string;
  TorrentDataRawBytes : list Byte.byte
}.

(** Writing the seven templated fields of an Action, all other fields kept. *)
Definition withTemplated (a : Action)
    (execArgs watchFolder category tags label savePath webhookData : string)
    : Action :=
  {| ID := ID a; Name := Name a; Type_ := Type_ a; Enabled := Enabled a;
     ExecCmd := ExecCmd a;
     ExecArgs := execArgs; WatchFolder := watchFolder; Category := category;
     Tags := tags; Label := label; SavePath := savePath;
     Paused := Paused a; IgnoreRules := IgnoreRules a;
     SkipHashCheck := SkipHashCheck a; ContentLayout := ContentLayout a;
     LimitUploadSpeed := LimitUploadSpeed a;
     LimitDownloadSpeed := LimitDownloadSpeed a;
     LimitRatio := LimitRatio a; LimitSeedTime := LimitSeedTime a;
     ReAnnounceSkip := ReAnnounceSkip a; ReAnnounceDelete := ReAnnounceDelete a;
     ReAnnounceInterval := ReAnnounceInterval a;
     ReAnnounceMaxAttempts := ReAnnounceMaxAttempts a;
     WebhookHost := WebhookHost a; WebhookType := WebhookType a;
     WebhookMethod := WebhookMethod a;
     WebhookData := webhookData;
     WebhookHeaders := WebhookHeaders a;
     ExternalDownloadClientID := ExternalDownloadClientID a;
     FilterID := FilterID a; ClientID := ClientID a; Client := Client a |}.

(** The fields of an Action that hold no template: all but ExecArgs,
    WatchFolder, Category, Tags, Label, SavePath and WebhookData. *)
Definition untemplated (a : Action) :=
  (ID a, Name a, Type_ a, Enabled a, ExecCmd a, Paused a, IgnoreRules a,
   SkipHashCheck a, ContentLayout a, LimitUploadSpeed a, LimitDownloadSpeed a,
   LimitRatio a, LimitSeedTime a, ReAnnounceSkip a, ReAnnounceDelete a,
   ReAnnounceInterval a, ReAnnounceMaxAttempts a, WebhookHost a,
   WebhookType a, WebhookMethod a, WebhookHeaders a,
   ExternalDownloadClientID a, FilterID a, ClientID a, Client a).

(** The seven templated fields, in the order [ParseMacros] resolves them. *)
Definition templated (a : Action) : list string :=
  [ ExecArgs a; WatchFolder a; Category a; Tags a; Label a; SavePath a;
    WebhookData a ].

(** The assignments [a.F = v] that [ParseMacros] performs. *)
Definition set_ExecArgs (v : string) (a : Action) : Action :=
  withTemplated a v (WatchFolder a) (Category a) (Tags a) (Label a)
                (SavePath a) (WebhookData a).
Definition set_WatchFolder (v : string) (a : Action) : Action :=
  withTemplated a (ExecArgs a) v (Category a) (Tags a) (Label a)
                (SavePath a) (WebhookData a).
Definition set_Category (v : string) (a : Action) : Action :=
  withTemplated a (ExecArgs a) (WatchFolder a) v (Tags a) (Label a)
                (SavePath a) (WebhookData a).
Definition set_Tags (v : string) (a : Action) : Action :=
  withTemplated a (ExecArgs a) (WatchFolder a) (Category a) v (Label a)
                (SavePath a) (WebhookData a).
Definition set_Label (v : string) (a : Action) : Action :=
  withTemplated a (ExecArgs a) (WatchFolder a) (Category a) (Tags a) v
                (SavePath a) (WebhookData a).
Definition set_SavePath (v : string) (a : Action) : Action :=
  withTemplated a (ExecArgs a) (WatchFolder a) (Category a) (Tags a) (Label a)
                v (WebhookData a).
Definition set_WebhookData (v : string) (a : Action) : Action :=
  withTemplated a (ExecArgs a) (WatchFolder a) (Category a) (Tags a) (Label a)
                (SavePath a) v.

(** The assignment [a.Type = t]. *)
Definition set_Type (t : ActionType) (a : Action) : Action :=
  {| ID := ID a; Name := Name a; Type_ := t; Enabled := Enabled a;
     ExecCmd := ExecCmd a;
     ExecArgs := ExecArgs a; WatchFolder := WatchFolder a;
     Category := Category a; Tags := Tags a; Label := Label a;
     SavePath := SavePath a;
     Paused := Paused a; IgnoreRules := IgnoreRules a;
     SkipHashCheck := SkipHashCheck a; ContentLayout := ContentLayout a;
     LimitUploadSpeed := LimitUploadSpeed a;
     LimitDownloadSpeed := LimitDownloadSpeed a;
     LimitRatio := LimitRatio a; LimitSeedTime := LimitSeedTime a;
     ReAnnounceSkip := ReAnnounceSkip a; ReAnnounceDelete := ReAnnounceDelete a;
     ReAnnounceInterval := ReAnnounceInterval a;
     ReAnnounceMaxAttempts := ReAnnounceMaxAttempts a;
     WebhookHost := WebhookHost a; WebhookType := WebhookType a;
     WebhookMethod := WebhookMethod a;
     WebhookData := WebhookData a;
     WebhookHeaders := WebhookHeaders a;
     ExternalDownloadClientID := ExternalDownloadClientID a;
     FilterID := FilterID a; ClientID := ClientID a; Client := Client a |}.

(** The assignment [release.TorrentDataRawBytes = t]. *)
Definition set_TorrentDataRawBytes (t : list Byte.byte) (r : Release) : Release :=
  {| TorrentName := TorrentName r; TorrentURL := TorrentURL r;
     TorrentTmpFile := TorrentTmpFile r; TorrentDataRawBytes := t |}.

(** *** Calls that leave [action.go]

    Each call [ParseMacros] makes into other code is recorded, in order: its
    argument, what it returned, and the Release as it was when the call was
    made. *)
Inductive Call : Type :=
| CallDownloadTorrentFile (err : option error)
| CallReadFile (name : string) (res : list Byte.byte + error)
| CallParse (text : string) (res : string * option error).

Definition isDownload (e : Call * Release) : bool :=
  match fst e with CallDownloadTorrentFile _ => true | _ => false end.
Definition isReadFile (e : Call * Release) : bool :=
  match fst e with CallReadFile _ _ => true | _ => false end.
Definition isParse (e : Call * Release) : bool :=
  match fst e with CallParse _ _ => true | _ => false end.

(** A file read that returned bytes, and not an empty file: the payload was
    loaded. *)
Definition loaded (e : Call * Release) : bool :=
  match fst e with CallReadFile _ (inl (_ :: _)) => true | _ => false end.

(** A download that returned no error: the payload was fetched. *)
Definition fetched (e : Call * Release) : bool :=
  match fst e with CallDownloadTorrentFile None => true | _ => false end.

(** A call made only when its cache was empty: a download while the release
    had no temporary file, a read while it had no payload bytes. *)
Definition guardedCall (e : Call * Release) : Prop :=
  (isDownload e = true -> TorrentTmpFile (snd e) = "") /\
  (isReadFile e = true -> TorrentDataRawBytes (snd e) = []).

(** The state one call of [ParseMacros] works on: the outside world (network
    and file system), the Release behind [release], the Action behind [a], and
    the calls made so far. *)
Record Store (World : Type) : Type := mkStore {
  world : World;
  rel   : Release;
  act   : Action;
  calls : list (Call * Release)
}.
Arguments mkStore {World}.
Arguments world {World}.
Arguments rel {World}.
Arguments act {World}.
Arguments calls {World}.

Definition Go (World A : Type) : Type := Store World -> A * Store World.

Definition ret {World A} (x : A) : Go World A := fun s => (x, s).
Definition bind {World A B} (c : Go World A) (k : A -> Go World B) : Go World B :=
  fun s => let r := c s in k (fst r) (snd r).

Declare Scope go_scope.
Delimit Scope go_scope with go.
Notation "x <- c ;; k" := (bind c (fun x => k))
  (at level 100, c at next level, right associativity) : go_scope.
Notation "c ;; k" := (bind c (fun _ => k))
  (at level 100, right associativity) : go_scope.

Section Engine.
Context {World : Type}.

(** [func (r *Release) DownloadTorrentFile() error], declared in
    [release.go]: may write to the release and to the world. *)
Variable DownloadTorrentFile : Release -> World -> option error * Release * World.
(** [os.ReadFile(name)]. *)
Variable ReadFile : string -> World -> list Byte.byte + error.
(** [NewMacro(release)] and [func (m Macro) Parse(text string) (string, error)],
    declared in [macros.go]. *)
Variable Macro : Type.
Variable NewMacro : Release -> Macro.
Variable Parse : Macro -> string -> string * option error.

Local Open Scope go_scope.

Definition load_a : Go World Action := fun s => (act s, s).
Definition load_release : Go World Release := fun s => (rel s, s).
Definition store_a (a : Action) : Go World unit :=
  fun s => (tt, mkStore (world s) (rel s) a (calls s)).
Definition store_release (r : Release) : Go World unit :=
  fun s => (tt, mkStore (world s) r (act s) (calls s)).

(** [release.DownloadTorrentFile()] *)
Definition call_DownloadTorrentFile : Go World (option error) :=
  fun s =>
    let out := DownloadTorrentFile (rel s) (world s) in
    (fst (fst out),
     mkStore (snd out) (snd (fst out)) (act s)
             (calls s ++ [(CallDownloadTorrentFile (fst (fst out)), rel s)])).

(** [os.ReadFile(name)] *)
Definition call_ReadFile (name : string) : Go World (list Byte.byte + error) :=
  fun s =>
    (ReadFile name (world s),
     mkStore (world s) (rel s) (act s)
             (calls s ++ [(CallReadFile name (ReadFile name (world s)), rel s)])).

(** [m.Parse(text)] *)
Definition call_Parse (m : Macro) (text : string) : Go World (string * option error) :=
  fun s =>
    (Parse m text,
     mkStore (world s) (rel s) (act s)
             (calls s ++ [(CallParse text (Parse m text), rel s)])).

(** What the specification says of a download that succeeds: it caches the
    path of the temporary file in the release. *)
Definition download_caches_path : Prop :=
  forall r w,
    fst (fst (DownloadTorrentFile r w)) = None ->
    TorrentTmpFile (snd (fst (DownloadTorrentFile r w))) <> "".

(** What is expected of a download besides: it leaves a populated byte cache
    as it is. *)
Definition download_keeps_bytes : Prop :=
  forall r w,
    TorrentDataRawBytes r <> [] ->
    TorrentDataRawBytes (snd (fst (DownloadTorrentFile r w)))
    = TorrentDataRawBytes r.

(** The condition of the first [if]. *)
Definition needsTorrentTmpFile (a : Action) (release : Release) : bool :=
  String.eqb (TorrentTmpFile release) "" &&
  (Contains (ExecArgs a) "TorrentPathName" || Contains (ExecArgs a) "TorrentDataRawBytes" ||
   Contains (WebhookData a) "TorrentPathName" || Contains (WebhookData a) "TorrentDataRawBytes" ||
   Contains (SavePath a) "TorrentPathName" || String.eqb (Type_ a) ActionTypeWatchFolder).

(** The condition of the second [if]. *)
Definition needsTorrentDataRawBytes (a : Action) (release : Release) : bool :=
  (Z.of_nat (length (TorrentDataRawBytes release)) =? 0)%Z &&
  (Contains (ExecArgs a) "TorrentDataRawBytes" || Contains (WebhookData a) "TorrentDataRawBytes" ||
   String.eqb (Type_ a) ActionTypeWatchFolder).

(** Lines 64-71: download the torrent file when it is needed and missing.
    The message of the wrapped error is formatted after the call, from the
    release as the call left it. *)
Definition downloadStep : Go World (option error) :=
  a <- load_a ;; release <- load_release ;;
  if needsTorrentTmpFile a release then
    err <- call_DownloadTorrentFile ;;
    match err with
    | Some err =>
        release <- load_release ;;
        ret (Some (errors_Wrap err
               ("webhook: could not download torrent file for release: " +:+ TorrentName release)))
    | None => ret None
    end
  else ret None.

(** Lines 73-83: read the file into [release.TorrentDataRawBytes]. *)
Definition readStep : Go World (option error) :=
  a <- load_a ;; release <- load_release ;;
  if needsTorrentDataRawBytes a release then
    t <- call_ReadFile (TorrentTmpFile release) ;;
    match t with
    | inr err =>
        ret (Some (errors_Wrap err
               ("could not read torrent file: " +:+ TorrentTmpFile release)))
    | inl t => store_release (set_TorrentDataRawBytes t release) ;; ret None
    end
  else ret None.

(** One line [a.F, err = m.Parse(a.F)]: both results are assigned, whatever
    [err] is; the value returned is the new [err]. *)
Definition parse_field (m : Macro) (get : Action -> string)
    (set : string -> Action -> Action) : Go World (option error) :=
  a <- load_a ;;
  p <- call_Parse m (get a) ;;
  store_a (set (fst p) a) ;;
  ret (snd p).

(** Lines 85-99: substitute the macros in the seven templated fields.  The
    variable [err] is assigned by every line, and tested once, after the
    last one. *)
Definition substituteStep : Go World (option error) :=
  release <- load_release ;;
  let m := NewMacro release in
  err <- parse_field m ExecArgs set_ExecArgs ;;
  err <- parse_field m WatchFolder set_WatchFolder ;;
  err <- parse_field m Category set_Category ;;
  err <- parse_field m Tags set_Tags ;;
  err <- parse_field m Label set_Label ;;
  err <- parse_field m SavePath set_SavePath ;;
  err <- parse_field m WebhookData set_WebhookData ;;
  a <- load_a ;;
  match err with
  | Some err =>
      ret (Some (errors_Wrap err ("could not parse macros for action: " +:+ Name a)))
  | None => ret None
  end.

(** The Action lines 87-93 leave behind [a]: every templated field holds
    the string its [Parse] call returned. *)
Definition substituted (m : Macro) (a : Action) : Action :=
  withTemplated a
    (fst (Parse m (ExecArgs a))) (fst (Parse m (WatchFolder a)))
    (fst (Parse m (Category a))) (fst (Parse m (Tags a)))
    (fst (Parse m (Label a))) (fst (Parse m (SavePath a)))
    (fst (Parse m (WebhookData a))).

(** The seven [Parse] calls made on [a] while the release is [r]. *)
Definition parseEvents (a : Action) (r : Release) : list (Call * Release) :=
  map (fun text => (CallParse text (Parse (NewMacro r) text), r)) (templated a).

(** [func (a *Action) ParseMacros(release *Release) error] *)
Definition ParseMacros : Go World (option error) :=
  err <- downloadStep ;;
  match err with
  | Some err => ret (Some err)
  | None =>
      err <- readStep ;;
      match err with
      | Some err => ret (Some err)
      | None => substituteStep
      end
  end.

(** One call [a.ParseMacros(release)] from a world, an Action and a Release:
    the error returned and the store it leaves. *)
Definition runParseMacros (a : Action) (release : Release) (w : World)
    : option error * Store World :=
  ParseMacros (mkStore w release a []).

(** [ParseMacros] called for each Action of a list in turn, against the same
    [*Release]: every call sees the release and the world the calls before
    it left.  Each Action's outcome is kept with the Action as the call left
    it; the calls are collected in order. *)
Fixpoint runParseMacrosEach (actions : list Action) (release : Release) (w : World)
    : list (option error * Action) * Release * World * list (Call * Release) :=
  match actions with
  | [] => ([], release, w, [])
  | a :: rest =>
      let out := runParseMacros a release w in
      let s := snd out in
      let '(results, release', w', cs) := runParseMacrosEach rest (rel s) (world s) in
      ((fst out, act s) :: results, release', w', calls s ++ cs)
  end.

End Engine.

(** A call that reports a failure of the fetch: a download or a file read
    that returned an error. *)
Definition failedFetch (e : Call * Release) : bool :=
  match fst e with
  | CallDownloadTorrentFile (Some _) => true
  | CallReadFile _ (inr _) => true
  | _ => false
  end.

End domain.

(** ** Package [notification]: the Pushover sender *)

Module notification.

(** [domain.NotificationEvent] is a string type. *)
Definition NotificationEvent := string.

(** [domain.Notification]: declared outside [pushover.go]; the record has the
    fields the sender reads. *)
Record Notification : Type := mkNotification {
  Enabled  : bool;
  APIKey   : string;
  Token    : string;
  Priority : Z;
  Events   : list string
}.

(** [type pushoverMessage struct]; the fields carry the prefix [m] because
    [Token] and [Priority] also name fields of [Notification].  [Timestamp]
    holds the Unix seconds of the [time.Time]. *)
Record pushoverMessage : Type := mkPushoverMessage {
  mToken     : string;
  mUser      : string;
  mMessage   : string;
  mPriority  : Z;
  mTitle     : string;
  mTimestamp : Z;
  mHtml      : Z
}.

(** [type pushoverSender struct]: the logger is the output of the functions
    below, the builder is a parameter of [Send]. *)
Record pushoverSender : Type := mkPushoverSender {
  Settings : Notification;
  baseUrl  : string
}.

(** [func NewPushoverSender(log, settings) domain.NotificationSender]: the
    sender for the given settings, bound to the Pushover endpoint. *)
Definition NewPushoverSender (settings : Notification) : pushoverSender :=
  {| Settings := settings;
     baseUrl := "https://api.pushover.net/1/messages.json" |}.

(** What the sender writes to its [zerolog.Logger]: level and message. *)
Inductive Level : Type := TraceLevel | DebugLevel | WarnLevel | ErrorLevel.
Definition LogLine : Type := Level * string.

(** A line written with [s.log.Error()]. *)
Definition isErrorLine (l : LogLine) : bool :=
  match fst l with ErrorLevel => true | _ => false end.

Definition http_StatusOK : Z := 200.

(** [func (s *pushoverSender) isEnabled() bool] *)
Definition isEnabled (s : pushoverSender) : bool * list LogLine :=
  if Enabled (Settings s) then
    if String.eqb (APIKey (Settings s)) "" then
      (false, [(WarnLevel, "pushover missing api key")])
    else if String.eqb (Token (Settings s)) "" then
      (false, [(WarnLevel, "pushover missing user key")])
    else (true, [])
  else (false, []).

(** The [for _, e := range s.Settings.Events] loop of [isEnabledEvent]. *)
Fixpoint rangeEvents (events : list string) (event : NotificationEvent) : bool :=
  match events with
  | [] => false
  | e :: rest => if String.eqb e event then true else rangeEvents rest event
  end.

(** [func (s *pushoverSender) isEnabledEvent(event) bool] *)
Definition isEnabledEvent (s : pushoverSender) (event : NotificationEvent) : bool :=
  rangeEvents (Events (Settings s)) event.

(** [func (s *pushoverSender) CanSend(event) bool]; [&&] evaluates its right
    operand only when the left one is true. *)
Definition CanSend (s : pushoverSender) (event : NotificationEvent) : bool * list LogLine :=
  let en := isEnabled s in
  if (if fst en then isEnabledEvent s event else false)
  then (true, snd en)
  else (false, snd en).

(** [url.Values] and [http.Header]: a key holds a list of values, [Set]
    replaces it with a single one. *)
Definition Values_Set (key value : string) (data : gmap string (list string))
    : gmap string (list string) :=
  <[key := [value]]> data.

(** [*http.Request] as far as [Send] builds it. *)
Record Request : Type := mkRequest {
  Method : string;
  URL    : string;
  Body   : string;
  Header : gmap string (list string)
}.

Definition Header_Set (key value : string) (req : Request) : Request :=
  mkRequest (Method req) (URL req) (Body req) (Values_Set key value (Header req)).

Section Send.
(** [domain.NotificationPayload] and the [NotificationBuilderPlainText]
    methods, declared elsewhere in the package. *)
Variable NotificationPayload : Type.
Variable BuildTitle : NotificationEvent -> string.
Variable BuildBody : NotificationPayload -> string.
(** [time.Now()], in Unix seconds, as this call reads it. *)
Variable time_Now : Z.
(** [url.Values.Encode]. *)
Variable Values_Encode : gmap string (list string) -> string.
(** [http.NewRequest(method, url, body)]. *)
Variable http_NewRequest : string -> string -> string -> Request + error.
(** [*http.Response]: status code and a body still to be read. *)
Variable ReadCloser : Type.
(** [client.Do(req)], returning [(StatusCode, Body)], and [io.ReadAll]. *)
Variable client_Do : Request -> (Z * ReadCloser) + error.
Variable io_ReadAll : ReadCloser -> list Byte.byte + error.
(** [fmt]'s rendering of a request under the verb [%+v]. *)
Variable fmt_Request : Request -> string.

(** Lines 48-59: the message. *)
Definition sendMessage (s : pushoverSender) (event : NotificationEvent)
    (payload : NotificationPayload) : pushoverMessage :=
  let title := BuildTitle event in
  let message := BuildBody payload in
  {| mToken := APIKey (Settings s);
     mUser := Token (Settings s);
     mPriority := Priority (Settings s);
     mMessage := message;
     mTitle := title;
     mTimestamp := time_Now;
     mHtml := 1 |}.

(** Lines 61-73: the form. *)
Definition sendData (m : pushoverMessage) : gmap string (list string) :=
  let data : gmap string (list string) := ∅ in
  let data := Values_Set "token" (mToken m) data in
  let data := Values_Set "user" (mUser m) data in
  let data := Values_Set "message" (mMessage m) data in
  let data := Values_Set "priority" (pretty (mPriority m)) data in
  let data := Values_Set "title" (mTitle m) data in
  let data := Values_Set "timestamp" (pretty (mTimestamp m)) data in
  let data := Values_Set "html" (pretty (mHtml m)) data in
  if (mPriority m =? 2)%Z then
    let data := Values_Set "expire" "3600" data in
    Values_Set "retry" "60" data
  else data.

(** [func (s *pushoverSender) Send(event, payload) error] *)
Definition Send (s : pushoverSender) (event : NotificationEvent)
    (payload : NotificationPayload) : option error * list LogLine :=
  let m := sendMessage s event payload in
  let data := sendData m in
  match http_NewRequest "POST" (baseUrl s) (Values_Encode data) with
  | inr err =>
      (Some (errors_Wrap err "could not create request"),
       [(ErrorLevel, "pushover client request error: " +:+ event)])
  | inl req =>
      let req := Header_Set "Content-Type" "application/x-www-form-urlencoded" req in
      let req := Header_Set "User-Agent" "autobrr" req in
      match client_Do req with
      | inr err =>
          (Some (errors_Wrap err ("could not make request: " +:+ fmt_Request req)),
           [(ErrorLevel, "pushover client request error: " +:+ event)])
      | inl res =>
          match io_ReadAll (snd res) with
          | inr err =>
              (Some (errors_Wrap err "could not read data"),
               [(ErrorLevel, "pushover client request error: " +:+ event)])
          | inl body =>
              let status := "pushover status: " +:+ pretty (fst res) +:+
                            " response: " +:+ string_of_list_byte body in
              if negb (fst res =? http_StatusOK)%Z then
                (Some (errors_New ("bad status: " +:+ pretty (fst res) +:+
                                   " body: " +:+ string_of_list_byte body)),
                 [(TraceLevel, status);
                  (ErrorLevel, "pushover client request error: " +:+
                               string_of_list_byte body)])
              else
                (None,
                 [(TraceLevel, status);
                  (DebugLevel, "notification successfully sent to pushover")])
          end
      end
  end.

End Send.

End notification.

(** ** The specification's data model, for comparison with the declarations *)

Module Spec.

(** The variant names of ActionType, in the order the specification lists
    them. *)
Definition ActionType_variants : list string :=
  [ "Test"; "Exec"; "WatchFolder"; "Webhook"; "Qbittorrent"; "DelugeV1";
    "DelugeV2"; "RTorrent"; "Transmission"; "Porla"; "Radarr"; "Sonarr";
    "Lidarr"; "Whisparr"; "Readarr"; "Sabnzbd" ].

(** The reannounce policy block: the name and the type of each of its
    fields. *)
Definition reannounce_block : list (string * domain.GoType) :=
  [ ("skip", domain.TBool); ("delete", domain.TBool);
    ("interval", domain.TInt64); ("max attempts", domain.TInt64) ].

(** Names are compared up to the case of their letters and the separators
    between their words: letters are put in upper case, underscores and
    spaces dropped. *)
Definition upper (c : ascii) : ascii :=
  let n := N_of_ascii c in
  if ((97 <=? n) && (n <=? 122))%N then ascii_of_N (n - 32) else c.

Fixpoint normalize (s : string) : string :=
  match s with
  | EmptyString => EmptyString
  | String c rest =>
      if Ascii.eqb c "_" || Ascii.eqb c " " then normalize rest
      else String (upper c) (normalize rest)
  end.

(** A name without the prefix the declaration gives it. *)
Definition stripPrefix (p s : string) : string :=
  if String.prefix p s
  then String.substring (String.length p) (String.length s - String.length p) s
  else s.

End Spec.

(** ** A closed world to run the engine in

    [release.go], [macros.go] and the operating system are outside the files
    embedded above; [ParseMacros] takes them as parameters.  To run it on
    concrete Actions and Releases the parameters are instantiated here. *)

Module Sim.
Import domain.

(** Modelled from the spec: the network and file system behind
    [Release.DownloadTorrentFile] and [os.ReadFile] ("download the payload from
    the release's source locator and cache ... the path"): what each source
    locator serves, and the content of each file. *)
Record World : Type := mkWorld {
  remote : gmap string (list Byte.byte);
  files  : gmap string (list Byte.byte)
}.

(** Modelled from the spec: [Release.DownloadTorrentFile], absent from the
    sources.  It fails when the locator is empty or serves nothing; otherwise
    it stores the payload in a temporary file and caches that file's path in
    the release. *)
Definition DownloadTorrentFile (r : Release) (w : World)
    : option error * Release * World :=
  if String.eqb (TorrentURL r) "" then
    (Some (errors_New "download_file: url can't be empty"), r, w)
  else
    match remote w !! TorrentURL r with
    | None => (Some (errors_New "error downloading file"), r, w)
    | Some payload =>
        let name := "/tmp/autobrr-" +:+ TorrentName r in
        (None,
         {| TorrentName := TorrentName r; TorrentURL := TorrentURL r;
            TorrentTmpFile := name;
            TorrentDataRawBytes := TorrentDataRawBytes r |},
         {| remote := remote w; files := <[name := payload]> (files w) |})
    end.

(** Modelled from the spec: [os.ReadFile] on the file system above. *)
Definition ReadFile (name : string) (w : World) : list Byte.byte + error :=
  match files w !! name with
  | Some content => inl content
  | None => inr (errors_New ("open " +:+ name +:+ ": no such file or directory"))
  end.

(** Modelled from the spec: the Macro of [macros.go], absent from the sources:
    the recognised placeholder names with the release attribute each stands
    for. *)
Record Macro : Type := mkMacro {
  mTorrentName         : string;
  mTorrentUrl          : string;
  mTorrentPathName     : string;
  mTorrentDataRawBytes : list Byte.byte
}.

(** Modelled from the spec: [NewMacro], absent from the sources: the macro
    values are read off a copy of the release. *)
Definition NewMacro (release : Release) : Macro :=
  {| mTorrentName := TorrentName release;
     mTorrentUrl := TorrentURL release;
     mTorrentPathName := TorrentTmpFile release;
     mTorrentDataRawBytes := TorrentDataRawBytes release |}.

(** The value a placeholder name stands for; [None] for an unknown name. *)
Definition field (m : Macro) (name : string) : option string :=
  if String.eqb name "TorrentName" then Some (mTorrentName m)
  else if String.eqb name "TorrentUrl" then Some (mTorrentUrl m)
  else if String.eqb name "TorrentPathName" then Some (mTorrentPathName m)
  else if String.eqb name "TorrentDataRawBytes"
       then Some (string_of_list_byte (mTorrentDataRawBytes m))
  else None.

(** Where the scanner is inside a template: in plain text, after one or two
    opening braces, inside the name of [{{.Name}}], or after its first
    closing brace. *)
Inductive Mode : Type :=
| Text | Open1 | Open2 | InName (name : string) | Close1 (name : string).

Definition emit (out : string) (rest : string + error) : string + error :=
  match rest with
  | inl s => inl (out +:+ s)
  | inr e => inr e
  end.

(** Modelled from the spec: substitution of the [{{.Name}}] placeholders
    ("fails with TemplateError for an unknown/malformed placeholder"). *)
Fixpoint render (m : Macro) (mode : Mode) (text : string) : string + error :=
  match text with
  | EmptyString =>
      match mode with
      | Text => inl ""
      | Open1 => inl "{"
      | _ => inr (errors_New "template: unclosed action")
      end
  | String c rest =>
      match mode with
      | Text =>
          if Ascii.eqb c "{" then render m Open1 rest
          else emit (String c "") (render m Text rest)
      | Open1 =>
          if Ascii.eqb c "{" then render m Open2 rest
          else emit (String "{" (String c "")) (render m Text rest)
      | Open2 =>
          if Ascii.eqb c "." then render m (InName "") rest
          else inr (errors_New "template: unexpected character in action")
      | InName name =>
          if Ascii.eqb c "}" then render m (Close1 name) rest
          else render m (InName (name +:+ String c "")) rest
      | Close1 name =>
          if Ascii.eqb c "}" then
            match field m name with
            | Some v => emit v (render m Text rest)
            | None => inr (errors_New ("can't evaluate field " +:+ name))
            end
          else inr (errors_New "template: unexpected character in action")
      end
  end.

(** Modelled from the spec: [Macro.Parse], the contract
    [Resolve(template, ctx) -> (string, error)]. *)
Definition Parse (m : Macro) (text : string) : string * option error :=
  match render m Text text with
  | inl s => (s, None)
  | inr e => ("", Some (errors_Wrap e "could not parse macro"))
  end.

(** [ParseMacros] in this world. *)
Definition run (a : Action) (release : Release) (w : World) :=
  runParseMacros DownloadTorrentFile ReadFile Macro NewMacro Parse a release w.

Definition runEach (actions : list Action) (release : Release) (w : World) :=
  runParseMacrosEach DownloadTorrentFile ReadFile Macro NewMacro Parse actions release w.

(** An Action with every field empty but its name and type. *)
Definition blank (name : string) (type : ActionType) : Action :=
  {| ID := 1; Name := name; Type_ := type; Enabled := true;
     ExecCmd := ""; ExecArgs := ""; WatchFolder := ""; Category := "";
     Tags := ""; Label := ""; SavePath := ""; Paused := false;
     IgnoreRules := false; SkipHashCheck := false; ContentLayout := "";
     LimitUploadSpeed := 0; LimitDownloadSpeed := 0; LimitRatio := 0%float;
     LimitSeedTime := 0; ReAnnounceSkip := false; ReAnnounceDelete := false;
     ReAnnounceInterval := 0; ReAnnounceMaxAttempts := 0; WebhookHost := "";
     WebhookType := ""; WebhookMethod := ""; WebhookData := "";
     WebhookHeaders := []; ExternalDownloadClientID := 0; FilterID := 0;
     ClientID := 0; Client := None |}.

(** The payload served for the sample release: the bytes of "d4:infoe". *)
Definition payload : list Byte.byte :=
  list_byte_of_string "d4:infoe".

(** A release announced but not downloaded yet, and one whose payload is
    cached, path and bytes. *)
Definition fresh : Release :=
  {| TorrentName := "ubuntu"; TorrentURL := "https://tracker.test/dl/1";
     TorrentTmpFile := ""; TorrentDataRawBytes := [] |}.

Definition cached : Release :=
  {| TorrentName := "ubuntu"; TorrentURL := "https://tracker.test/dl/1";
     TorrentTmpFile := "/tmp/autobrr-ubuntu"; TorrentDataRawBytes := payload |}.

(** A network that serves the sample release, one that serves nothing. *)
Definition online : World :=
  {| remote := {[ "https://tracker.test/dl/1" := payload ]}; files := ∅ |}.

Definition offline : World := {| remote := ∅; files := ∅ |}.

(** A release whose cached temporary file has been removed from disk. *)
Definition stale : Release :=
  {| TorrentName := "ubuntu"; TorrentURL := "https://tracker.test/dl/1";
     TorrentTmpFile := "/tmp/autobrr-gone"; TorrentDataRawBytes := [] |}.

(** Sample Actions: an Exec whose arguments name an unknown macro while its
    webhook body is a valid template; a download-client Action whose category
    names the torrent file path; a WatchFolder; a Webhook whose body is the
    raw payload. *)
Definition execUnknown : Action :=
  set_WebhookData "{{.TorrentName}}"
    (set_ExecArgs "--name {{.Nope}}" (blank "exec" ActionTypeExec)).

Definition categoryPath : Action :=
  set_Category "{{.TorrentPathName}}" (blank "qbit" ActionTypeQbittorrent).

Definition watch : Action :=
  set_WatchFolder "/watch/{{.TorrentName}}.torrent"
    (blank "watch" ActionTypeWatchFolder).

Definition hook : Action :=
  set_WebhookData "payload={{.TorrentDataRawBytes}}"
    (blank "hook" ActionTypeWebhook).

(** An Exec whose arguments are the torrent file path; an Exec whose
    arguments mention the placeholder's name in plain text, outside any
    [{{ }}]. *)
Definition execPath : Action :=
  set_ExecArgs "{{.TorrentPathName}}" (blank "path" ActionTypeExec).

Definition plainMention : Action :=
  set_ExecArgs "echo TorrentPathName" (blank "echo" ActionTypeExec).

(** A release whose temporary file is cached but not read yet, and a world
    that holds that file. *)
Definition pathOnly : Release :=
  {| TorrentName := "ubuntu"; TorrentURL := "https://tracker.test/dl/1";
     TorrentTmpFile := "/tmp/autobrr-ubuntu"; TorrentDataRawBytes := [] |}.

Definition onDisk : World :=
  {| remote := ∅; files := {[ "/tmp/autobrr-ubuntu" := payload ]} |}.

End Sim.

(** ** A closed world to run the sender in *)

Module SimPushover.
Import notification.

(** A sender enabled for two events, with the given priority. *)
Definition sender (priority : Z) : pushoverSender :=
  {| Settings := {| Enabled := true; APIKey := "app-key"; Token := "user-key";
                    Priority := priority;
                    Events := ["PUSH_APPROVED"; "PUSH_ERROR"] |};
     baseUrl := "https://api.pushover.net/1/messages.json" |}.

(** Modelled from the spec: the HTTP client behind [Send], absent from the
    sources: requests are always built, the server answers every request
    with the given status and an empty body, and the form is encoded
    as [key=value] pairs. *)
Definition NewRequest (method url body : string) : Request + error :=
  inl (mkRequest method url body ∅).

Definition Do (status : Z) (req : Request) : (Z * list Byte.byte) + error :=
  inl (status, []).

Definition ReadAll (body : list Byte.byte) : list Byte.byte + error :=
  inl body.

(** A server that answers only form posts from autobrr: a request without
    the two headers is refused. *)
Definition DoChecked (status : Z) (req : Request) : (Z * list Byte.byte) + error :=
  if decide (Header req !! "Content-Type"
             = Some ["application/x-www-form-urlencoded"]) then
    if decide (Header req !! "User-Agent" = Some ["autobrr"]) then
      inl (status, [])
    else inr (errors_New "forbidden user agent")
  else inr (errors_New "unsupported media type").

(** A server that cannot be reached: every request fails. *)
Definition DoRefused (req : Request) : (Z * list Byte.byte) + error :=
  inr (errors_New "connection refused").

(** A transport that builds requests for the Pushover endpoint only. *)
Definition NewRequestPushover (method url body : string) : Request + error :=
  if String.eqb method "POST" &&
     String.eqb url "https://api.pushover.net/1/messages.json"
  then inl (mkRequest method url body ∅)
  else inr (errors_New "unexpected request").

(** A rendering of a request for error messages: its method and URL. *)
Definition ShowRequest (req : Request) : string :=
  Method req +:+ " " +:+ URL req.

Definition Encode (data : gmap string (list string)) : string :=
  String.concat "&"
    (map (fun kv => fst kv +:+ "=" +:+ String.concat "," (snd kv))
         (map_to_list data)).

Definition send (status priority : Z) (event : NotificationEvent)
    : option error * list LogLine :=
  Send string (fun event => event) (fun payload => payload) 1698700000
       Encode NewRequest (list Byte.byte) (Do status) ReadAll ShowRequest
       (sender priority) event "release approved".

End SimPushover.

(** * Properties *)

(** ** The three steps of [ParseMacros], one equation each *)

Section EngineFacts.
Import domain.
Context {World : Type}.
Variable DownloadTorrentFile : Release -> World -> option error * Release * World.
Variable ReadFile : string -> World -> list Byte.byte + error.
Variable Macro : Type.
Variable NewMacro : Release -> Macro.
Variable Parse : Macro -> string -> string * option error.

Local Abbreviation downloadStep := (domain.downloadStep DownloadTorrentFile).
Local Abbreviation readStep := (domain.readStep ReadFile).
Local Abbreviation substituteStep := (domain.substituteStep Macro NewMacro Parse).
Local Abbreviation parseEvents := (domain.parseEvents Macro NewMacro Parse).
Local Abbreviation download_caches_path :=
  (domain.download_caches_path DownloadTorrentFile).
Local Abbreviation download_keeps_bytes :=
  (domain.download_keeps_bytes DownloadTorrentFile).
Local Abbreviation ParseMacros :=
  (domain.ParseMacros DownloadTorrentFile ReadFile Macro NewMacro Parse).
Local Abbreviation run :=
  (runParseMacros DownloadTorrentFile ReadFile Macro NewMacro Parse).
Local Abbreviation runEach :=
  (runParseMacrosEach DownloadTorrentFile ReadFile Macro NewMacro Parse).

Implicit Types (s : Store World) (a : Action) (r : Release) (w : World).

Lemma downloadStep_skip s :
  needsTorrentTmpFile (act s) (rel s) = false ->
  downloadStep s = (None, s).
Proof.
  intros H. unfold domain.downloadStep, bind, load_a, load_release; cbn.
  rewrite H; reflexivity.
Qed.

Lemma downloadStep_call s :
  needsTorrentTmpFile (act s) (rel s) = true ->
  downloadStep s =
    (match fst (fst (DownloadTorrentFile (rel s) (world s))) with
     | Some err =>
         Some (errors_Wrap err
                 ("webhook: could not download torrent file for release: "
                  +:+ TorrentName (snd (fst (DownloadTorrentFile (rel s) (world s))))))
     | None => None
     end,
     mkStore (snd (DownloadTorrentFile (rel s) (world s)))
             (snd (fst (DownloadTorrentFile (rel s) (world s))))
             (act s)
             (calls s ++ [(CallDownloadTorrentFile
                             (fst (fst (DownloadTorrentFile (rel s) (world s)))),
                           rel s)])).
Proof.
  intros H.
  unfold domain.downloadStep, bind, load_a, load_release,
    call_DownloadTorrentFile; cbn.
  rewrite H; cbn.
  destruct (DownloadTorrentFile (rel s) (world s)) as [[[e|] r'] w']; reflexivity.
Qed.

Lemma readStep_skip s :
  needsTorrentDataRawBytes (act s) (rel s) = false ->
  readStep s = (None, s).
Proof.
  intros H. unfold domain.readStep, bind, load_a, load_release; cbn.
  rewrite H; reflexivity.
Qed.

Lemma readStep_call s :
  needsTorrentDataRawBytes (act s) (rel s) = true ->
  readStep s =
    match ReadFile (TorrentTmpFile (rel s)) (world s) with
    | inl t =>
        (None,
         mkStore (world s) (set_TorrentDataRawBytes t (rel s)) (act s)
                 (calls s ++ [(CallReadFile (TorrentTmpFile (rel s)) (inl t), rel s)]))
    | inr err =>
        (Some (errors_Wrap err
                 ("could not read torrent file: " +:+ TorrentTmpFile (rel s))),
         mkStore (world s) (rel s) (act s)
                 (calls s ++ [(CallReadFile (TorrentTmpFile (rel s)) (inr err), rel s)]))
    end.
Proof.
  intros H.
  unfold domain.readStep, bind, load_a, load_release, call_ReadFile; cbn.
  rewrite H; cbn.
  destruct (ReadFile (TorrentTmpFile (rel s)) (world s)); reflexivity.
Qed.

Lemma substituteStep_eq s :
  substituteStep s =
    (match snd (Parse (NewMacro (rel s)) (WebhookData (act s))) with
     | Some err =>
         Some (errors_Wrap err
                 ("could not parse macros for action: " +:+ Name (act s)))
     | None => None
     end,
     mkStore (world s) (rel s)
             (substituted Macro Parse (NewMacro (rel s)) (act s))
             (calls s ++ parseEvents (act s) (rel s))).
Proof.
  destruct s as [w r a cs]; destruct a.
  lazy [domain.substituteStep bind ret parse_field load_a load_release
        store_a call_Parse fst snd act rel world calls
        set_ExecArgs set_WatchFolder set_Category set_Tags set_Label
        set_SavePath set_WebhookData withTemplated substituted
        domain.parseEvents templated map
        ID Name Type_ Enabled ExecCmd ExecArgs WatchFolder Category Tags
        Label SavePath Paused IgnoreRules SkipHashCheck ContentLayout
        LimitUploadSpeed LimitDownloadSpeed LimitRatio LimitSeedTime
        ReAnnounceSkip ReAnnounceDelete ReAnnounceInterval
        ReAnnounceMaxAttempts WebhookHost WebhookType WebhookMethod
        WebhookData WebhookHeaders ExternalDownloadClientID FilterID
        ClientID Client].
  rewrite <- !app_assoc.
  destruct (Parse (NewMacro r) WebhookData0) as [v [e|]]; reflexivity.
Qed.

(** [ParseMacros] is its three steps in sequence, the first error ending
    the call. *)
Lemma ParseMacros_eq s :
  ParseMacros s =
    match fst (downloadStep s) with
    | Some err => (Some err, snd (downloadStep s))
    | None =>
        match fst (readStep (snd (downloadStep s))) with
        | Some err => (Some err, snd (readStep (snd (downloadStep s))))
        | None => substituteStep (snd (readStep (snd (downloadStep s))))
        end
    end.
Proof.
  unfold domain.ParseMacros, bind at 1.
  destruct (downloadStep s) as [[e|] s1]; cbn [fst snd]; [reflexivity|].
  unfold bind at 1.
  destruct (readStep s1) as [[e|] s2]; reflexivity.
Qed.

(** ** What one call does to the payload caches *)

Lemma needsTorrentTmpFile_empty a r :
  needsTorrentTmpFile a r = true -> TorrentTmpFile r = "".
Proof.
  unfold needsTorrentTmpFile. intros H.
  apply andb_prop in H as [H _]. apply String.eqb_eq, H.
Qed.

Lemma needsTorrentTmpFile_cached a r :
  TorrentTmpFile r <> "" -> needsTorrentTmpFile a r = false.
Proof.
  intros H. destruct (needsTorrentTmpFile a r) eqn:E; [|reflexivity].
  destruct H. eapply needsTorrentTmpFile_empty, E.
Qed.

Lemma needsTorrentDataRawBytes_empty a r :
  needsTorrentDataRawBytes a r = true -> TorrentDataRawBytes r = [].
Proof.
  unfold needsTorrentDataRawBytes. intros H.
  apply andb_prop in H as [H _]. apply Z.eqb_eq in H.
  destruct (TorrentDataRawBytes r); [reflexivity | discriminate H].
Qed.

Lemma needsTorrentDataRawBytes_cached a r :
  TorrentDataRawBytes r <> [] -> needsTorrentDataRawBytes a r = false.
Proof.
  intros H. destruct (needsTorrentDataRawBytes a r) eqn:E; [|reflexivity].
  destruct H. eapply needsTorrentDataRawBytes_empty, E.
Qed.

(** Splits a goal about [ParseMacros s] into the ways the call can go:
    download failed / made / skipped, then read failed / made / skipped,
    then the substitution. *)
Ltac parse_macros_cases s :=
  rewrite (ParseMacros_eq s);
  let Hd := fresh "Hd" in let Hr := fresh "Hr" in
  destruct (needsTorrentTmpFile (act s) (rel s)) eqn:Hd;
  [ rewrite (downloadStep_call s Hd);
    cbn [fst snd act rel world calls] in *;
    let e := fresh "e" in let r1 := fresh "r1" in let w1 := fresh "w1" in
    match goal with
    | |- context [fst (fst (DownloadTorrentFile ?r ?w))] =>
        destruct (DownloadTorrentFile r w) as [[[e|] r1] w1] eqn:?
    end
  | rewrite (downloadStep_skip s Hd) ];
  cbn [fst snd act rel world calls] in *;
  [ idtac
  | match goal with
    | |- context [readStep ?s1] =>
        destruct (needsTorrentDataRawBytes (act s1) (rel s1)) eqn:Hr;
        [ rewrite (readStep_call s1 Hr);
          cbn [fst snd act rel world calls] in *;
          let t := fresh "t" in let e := fresh "e" in
          match goal with
          | |- context [match ReadFile ?n ?w with _ => _ end] =>
              destruct (ReadFile n w) as [t|e] eqn:?
          end
        | rewrite (readStep_skip s1 Hr) ]
    end ..
  ];
  cbn [fst snd]; rewrite ?substituteStep_eq;
  cbn [fst snd act rel world calls] in *.

Lemma parseEvents_guarded a r : Forall guardedCall (parseEvents a r).
Proof. repeat constructor; discriminate. Qed.

Lemma parseEvents_isParse a r :
  Forall (fun e => isParse e = true) (parseEvents a r).
Proof. repeat constructor. Qed.

Lemma run_guarded a r w : Forall guardedCall (calls (snd (run a r w))).
Proof.
  unfold runParseMacros.
  parse_macros_cases (mkStore w r a []);
    repeat (apply Forall_app; split); try apply parseEvents_guarded;
    repeat constructor; try discriminate; intros _;
    first [ exact (needsTorrentTmpFile_empty _ _ Hd)
          | exact (needsTorrentDataRawBytes_empty _ _ Hr) ].
Qed.

Lemma run_cached_path a r w :
  TorrentTmpFile r <> "" ->
  Forall (fun e => isDownload e = false) (calls (snd (run a r w))) /\
  TorrentTmpFile (rel (snd (run a r w))) = TorrentTmpFile r /\
  world (snd (run a r w)) = w.
Proof.
  intros Hp. unfold runParseMacros.
  parse_macros_cases (mkStore w r a []);
    try (rewrite (needsTorrentTmpFile_cached a r Hp) in Hd; discriminate Hd);
    repeat split; repeat constructor.
Qed.

Lemma run_cached a r w :
  TorrentTmpFile r <> "" -> TorrentDataRawBytes r <> [] ->
  calls (snd (run a r w)) = parseEvents a r /\
  rel (snd (run a r w)) = r /\
  world (snd (run a r w)) = w.
Proof.
  intros Hp Hb. unfold runParseMacros.
  parse_macros_cases (mkStore w r a []);
    try (rewrite (needsTorrentTmpFile_cached a r Hp) in Hd; discriminate Hd);
    try (rewrite (needsTorrentDataRawBytes_cached a r Hb) in Hr; discriminate Hr).
  repeat split.
Qed.


Lemma fetched_is_download cs :
  Forall (fun e => isDownload e = false) cs -> List.filter fetched cs = [].
Proof.
  induction 1 as [|[c r] cs Hc _ IH]; [reflexivity|].
  cbn [List.filter]. rewrite IH.
  destruct c as [[e|]| |]; try reflexivity; discriminate Hc.
Qed.

Lemma run_fetched a r w :
  download_caches_path ->
  List.filter fetched (calls (snd (run a r w))) = [] \/
  (length (List.filter fetched (calls (snd (run a r w)))) = 1%nat /\
   TorrentTmpFile (rel (snd (run a r w))) <> "").
Proof.
  intros H. pose proof (H r w) as Hrw. unfold runParseMacros.
  parse_macros_cases (mkStore w r a []);
    rewrite ?List.filter_app; cbn [List.filter fetched fst app length];
    first [ left; reflexivity
          | right; split; [reflexivity | exact (Hrw eq_refl)] ].
Qed.

Lemma runEach_guarded (actions : list Action) r w :
  match runEach actions r w with
  | (_, _, _, cs) => Forall guardedCall cs
  end.
Proof.
  revert r w. induction actions as [|a rest IH]; intros r w;
    cbn [runParseMacrosEach]; [constructor|]. cbv zeta.
  specialize (IH (rel (snd (run a r w))) (world (snd (run a r w)))).
  destruct (runEach rest _ _) as [[[results r'] w'] cs].
  apply Forall_app; split; [apply run_guarded | exact IH].
Qed.

Lemma runEach_cached_path (actions : list Action) r w :
  TorrentTmpFile r <> "" ->
  match runEach actions r w with
  | (_, r', w', cs) =>
      Forall (fun e => isDownload e = false) cs /\
      TorrentTmpFile r' = TorrentTmpFile r /\ w' = w
  end.
Proof.
  revert r w. induction actions as [|a rest IH]; intros r w Hp;
    cbn [runParseMacrosEach]; [repeat split; constructor|]. cbv zeta.
  destruct (run_cached_path a r w Hp) as (Hc & Hr & Hw).
  specialize (IH (rel (snd (run a r w))) (world (snd (run a r w)))).
  rewrite Hr in IH. specialize (IH Hp).
  destruct (runEach rest _ _) as [[[results r'] w'] cs].
  destruct IH as (IH1 & IH2 & IH3).
  split; [apply Forall_app; split; assumption|]. split; congruence.
Qed.

Lemma runEach_cached (actions : list Action) r w :
  TorrentTmpFile r <> "" -> TorrentDataRawBytes r <> [] ->
  match runEach actions r w with
  | (_, r', w', cs) =>
      Forall (fun e => isParse e = true) cs /\ r' = r /\ w' = w
  end.
Proof.
  revert r w. induction actions as [|a rest IH]; intros r w Hp Hb;
    cbn [runParseMacrosEach]; [repeat split; constructor|]. cbv zeta.
  destruct (run_cached a r w Hp Hb) as (Hc & Hr & Hw).
  specialize (IH (rel (snd (run a r w))) (world (snd (run a r w)))).
  rewrite Hr, Hw in IH |- *. specialize (IH Hp Hb).
  destruct (runEach rest r w) as [[[results r'] w'] cs].
  destruct IH as (IH1 & IH2 & IH3).
  split; [|split; congruence].
  apply Forall_app; split; [|assumption].
  rewrite Hc. apply parseEvents_isParse.
Qed.

Lemma runEach_fetched_once (actions : list Action) r w :
  download_caches_path ->
  match runEach actions r w with
  | (_, _, _, cs) => (length (List.filter fetched cs) <= 1)%nat
  end.
Proof.
  intros H. revert r w. induction actions as [|a rest IH]; intros r w;
    cbn [runParseMacrosEach]; [cbn; lia|]. cbv zeta.
  specialize (IH (rel (snd (run a r w))) (world (snd (run a r w)))).
  pose proof (runEach_cached_path rest (rel (snd (run a r w)))
                (world (snd (run a r w)))) as Hrest.
  destruct (runEach rest _ _) as [[[results r'] w'] cs].
  rewrite List.filter_app, length_app.
  destruct (run_fetched a r w H) as [-> | [-> Hp]]; [exact IH|].
  destruct (Hrest Hp) as (Hno & _).
  rewrite (fetched_is_download _ Hno). cbn; lia.
Qed.

(** Whatever asks for the payload bytes also asks for the file: the tests of
    the second [if] are among those of the first. *)
Lemma needsTorrentDataRawBytes_needsTorrentTmpFile a r :
  needsTorrentDataRawBytes a r = true ->
  TorrentTmpFile r = "" ->
  needsTorrentTmpFile a r = true.
Proof.
  unfold needsTorrentDataRawBytes, needsTorrentTmpFile. intros H Hp.
  rewrite Hp. apply andb_prop in H as [_ H].
  apply orb_prop in H as [H|H]; [apply orb_prop in H as [H|H]|];
    rewrite H, ?orb_true_r; reflexivity.
Qed.

Lemma loaded_is_read cs :
  Forall (fun e => isParse e = true) cs -> List.filter loaded cs = [].
Proof.
  induction 1 as [|[c r] cs Hc _ IH]; [reflexivity|].
  cbn [List.filter]. rewrite IH.
  destruct c as [| |]; try discriminate Hc; reflexivity.
Qed.

(** One call, when a download that succeeds caches the path: either no
    payload is loaded, or one is, and then both caches are populated when the
    call returns, the byte cache with the bytes that were read. *)
Lemma run_loaded a r w :
  download_caches_path ->
  List.filter loaded (calls (snd (run a r w))) = [] \/
  exists name t r0,
    List.filter loaded (calls (snd (run a r w)))
    = [(CallReadFile name (inl t), r0)] /\
    t <> [] /\
    TorrentTmpFile (rel (snd (run a r w))) <> "" /\
    TorrentDataRawBytes (rel (snd (run a r w))) = t.
Proof.
  intros H. pose proof (H r w) as Hrw. unfold runParseMacros.
  parse_macros_cases (mkStore w r a []);
    rewrite ?List.filter_app;
    try (left; reflexivity).
  - destruct t as [|b t]; [left; reflexivity|]. right.
    exists (TorrentTmpFile r1), (b :: t), r1.
    split; [reflexivity|]. split; [discriminate|].
    split; [exact (Hrw eq_refl) | reflexivity].
  - destruct t as [|b t]; [left; reflexivity|]. right.
    exists (TorrentTmpFile r), (b :: t), r.
    split; [reflexivity|]. split; [discriminate|].
    split; [|reflexivity].
    intros Hempty.
    rewrite (needsTorrentDataRawBytes_needsTorrentTmpFile a r Hr Hempty) in Hd.
    discriminate Hd.
Qed.

Lemma runEach_loaded (actions : list Action) r w :
  download_caches_path ->
  match runEach actions r w with
  | (_, r', _, cs) =>
      List.filter loaded cs = [] \/
      exists name t r0,
        List.filter loaded cs = [(CallReadFile name (inl t), r0)] /\
        t <> [] /\ TorrentDataRawBytes r' = t
  end.
Proof.
  intros H. revert r w. induction actions as [|a rest IH]; intros r w;
    cbn [runParseMacrosEach]; [left; reflexivity|]. cbv zeta.
  specialize (IH (rel (snd (run a r w))) (world (snd (run a r w)))).
  pose proof (runEach_cached rest (rel (snd (run a r w)))
                (world (snd (run a r w)))) as Hrest.
  destruct (runEach rest _ _) as [[[results r'] w'] cs].
  rewrite List.filter_app.
  destruct (run_loaded a r w H) as [-> | (name & t & r0 & -> & Ht & Hp & Hb)];
    [exact IH|].
  right. exists name, t, r0.
  assert (Hne : TorrentDataRawBytes (rel (snd (run a r w))) <> [])
    by (rewrite Hb; exact Ht).
  destruct (Hrest Hp Hne) as (Hparse & -> & _).
  rewrite (loaded_is_read _ Hparse). repeat split; assumption.
Qed.

(** One call on a release whose bytes are cached, when downloads leave the
    byte cache alone: no file is read and the bytes stay. *)
Lemma run_bytes_cached a r w :
  download_keeps_bytes ->
  TorrentDataRawBytes r <> [] ->
  Forall (fun e => isReadFile e = false) (calls (snd (run a r w))) /\
  TorrentDataRawBytes (rel (snd (run a r w))) = TorrentDataRawBytes r.
Proof.
  intros H Hb. pose proof (H r w Hb) as Hrw. unfold runParseMacros.
  parse_macros_cases (mkStore w r a []);
    cbn [fst snd] in Hrw;
    try (rewrite needsTorrentDataRawBytes_cached in Hr by congruence;
         discriminate Hr);
    (split; [repeat (apply Forall_app; split); repeat constructor|]);
    congruence.
Qed.

Lemma runEach_bytes_cached (actions : list Action) r w :
  download_keeps_bytes ->
  TorrentDataRawBytes r <> [] ->
  match runEach actions r w with
  | (_, r', _, cs) =>
      Forall (fun e => isReadFile e = false) cs /\
      TorrentDataRawBytes r' = TorrentDataRawBytes r
  end.
Proof.
  intros H. revert r w. induction actions as [|a rest IH]; intros r w Hb;
    cbn [runParseMacrosEach]; [split; [constructor | reflexivity]|]. cbv zeta.
  destruct (run_bytes_cached a r w H Hb) as (Hc & Hr).
  specialize (IH (rel (snd (run a r w))) (world (snd (run a r w)))).
  rewrite Hr in IH. specialize (IH Hb).
  destruct (runEach rest _ _) as [[[results r'] w'] cs].
  destruct IH as (IH1 & IH2).
  split; [apply Forall_app; split; assumption | exact IH2].
Qed.

(** C2. At-most-once fetch.  When [ParseMacros] is called for several
    Actions in turn against the same Release: every call of
    [DownloadTorrentFile] is made while the release's [TorrentTmpFile] is
    still empty, and every file read while [TorrentDataRawBytes] is still
    empty; once the temporary file is cached no call downloads again, the
    path stays and the world is left alone; once the bytes are cached no
    call reads the file again and the bytes stay (downloads leaving the byte
    cache alone); once both caches are populated the calls only substitute,
    reusing the cached release unchanged.  As long as a download that
    succeeds caches the path, the payload is fetched at most once and loaded
    from the file at most once over all the calls, and the bytes that were
    read are the release's [TorrentDataRawBytes] from then on. *)
Theorem ParseMacros_fetches_only_while_uncached (actions : list Action) r w :
  match runEach actions r w with
  | (_, r', w', cs) =>
      Forall guardedCall cs /\
      (TorrentTmpFile r <> "" ->
         Forall (fun e => isDownload e = false) cs /\
         TorrentTmpFile r' = TorrentTmpFile r /\ w' = w) /\
      (TorrentDataRawBytes r <> [] -> download_keeps_bytes ->
         Forall (fun e => isReadFile e = false) cs /\
         TorrentDataRawBytes r' = TorrentDataRawBytes r) /\
      (TorrentTmpFile r <> "" /\ TorrentDataRawBytes r <> [] ->
         Forall (fun e => isParse e = true) cs /\ r' = r /\ w' = w) /\
      (download_caches_path ->
         (length (List.filter fetched cs) <= 1)%nat /\
         (length (List.filter loaded cs) <= 1)%nat /\
         forall name t r0,
           In (CallReadFile name (inl t), r0) cs -> t <> [] ->
           TorrentDataRawBytes r' = t)
  end.
Proof.
  pose proof (runEach_guarded actions r w) as Hg.
  pose proof (runEach_cached_path actions r w) as Hp.
  pose proof (runEach_bytes_cached actions r w) as Hk.
  pose proof (runEach_cached actions r w) as Hb.
  pose proof (runEach_fetched_once actions r w) as Hf.
  pose proof (runEach_loaded actions r w) as Hl.
  destruct (runEach actions r w) as [[[results r'] w'] cs].
  split; [exact Hg|]. split; [exact Hp|].
  split; [intros H1 H2; exact (Hk H2 H1)|].
  split; [intros [H1 H2]; exact (Hb H1 H2)|].
  intros H. split; [exact (Hf H)|].
  destruct (Hl H) as [Hnone | (name0 & t0 & r00 & Hone & Ht0 & Hbytes)].
  - rewrite Hnone. split; [cbn; lia|].
    intros name t r0 Hin Ht. exfalso.
    assert (Hfl : In (CallReadFile name (inl t), r0) (List.filter loaded cs)).
    { apply List.filter_In. split; [exact Hin|].
      destruct t; [contradiction | reflexivity]. }
    rewrite Hnone in Hfl. destruct Hfl.
  - rewrite Hone. split; [cbn; lia|].
    intros name t r0 Hin Ht.
    assert (Hfl : In (CallReadFile name (inl t), r0) (List.filter loaded cs)).
    { apply List.filter_In. split; [exact Hin|].
      destruct t; [contradiction | reflexivity]. }
    rewrite Hone in Hfl. destruct Hfl as [Heq | []].
    injection Heq as _ <- _. exact Hbytes.
Qed.


(** ** The WatchFolder type *)

Lemma WatchFolder_needsTorrentTmpFile a r :
  Type_ a = ActionTypeWatchFolder -> TorrentTmpFile r = "" ->
  needsTorrentTmpFile a r = true.
Proof.
  intros Ht Hp. unfold needsTorrentTmpFile. rewrite Ht, Hp.
  rewrite !String.eqb_refl, !orb_true_r. reflexivity.
Qed.

Lemma WatchFolder_needsTorrentDataRawBytes a r :
  Type_ a = ActionTypeWatchFolder -> TorrentDataRawBytes r = [] ->
  needsTorrentDataRawBytes a r = true.
Proof.
  intros Ht Hb. unfold needsTorrentDataRawBytes. rewrite Ht, Hb.
  rewrite String.eqb_refl, !orb_true_r. reflexivity.
Qed.

(** C3. For an Action of type WatchFolder and a Release with no cached
    torrent file, whatever the Action's templates contain: the first thing
    [ParseMacros] does is call [DownloadTorrentFile] on the release; when
    the download succeeds and leaves the byte cache empty, the next call
    reads the downloaded file, and the bytes read are the release's
    [TorrentDataRawBytes] when [ParseMacros] returns. *)
Theorem ParseMacros_WatchFolder_forces_fetch a r w :
  Type_ a = ActionTypeWatchFolder ->
  TorrentTmpFile r = "" ->
  let out := run a r w in
  let dl := DownloadTorrentFile r w in
  let read := ReadFile (TorrentTmpFile (snd (fst dl))) (snd dl) in
  head (calls (snd out)) = Some (CallDownloadTorrentFile (fst (fst dl)), r) /\
  (fst (fst dl) = None ->
   TorrentDataRawBytes (snd (fst dl)) = [] ->
   calls (snd out) !! 1%nat
     = Some (CallReadFile (TorrentTmpFile (snd (fst dl))) read, snd (fst dl)) /\
   forall t, read = inl t -> TorrentDataRawBytes (rel (snd out)) = t).
Proof.
  intros Ht Hp out dl read; subst out dl read.
  pose proof (WatchFolder_needsTorrentTmpFile a r Ht Hp) as Hn.
  unfold runParseMacros.
  parse_macros_cases (mkStore w r a []); try congruence.
  - split; [reflexivity|]. intros Hnone; discriminate Hnone.
  - split; [reflexivity|]. intros _ _. split; [reflexivity|].
    intros t' Ht'. injection Ht' as <-. reflexivity.
  - split; [reflexivity|]. intros _ _. split; [reflexivity|].
    intros t' Ht'. discriminate Ht'.
  - split; [reflexivity|]. intros _ Hb.
    rewrite (WatchFolder_needsTorrentDataRawBytes a r1 Ht Hb) in Hr.
    discriminate Hr.
Qed.


(** ** What triggers the download *)

Lemma needsTorrentTmpFile_iff a r :
  needsTorrentTmpFile a r = true <->
  TorrentTmpFile r = "" /\
  (Contains (ExecArgs a) "TorrentPathName" = true \/
   Contains (ExecArgs a) "TorrentDataRawBytes" = true \/
   Contains (WebhookData a) "TorrentPathName" = true \/
   Contains (WebhookData a) "TorrentDataRawBytes" = true \/
   Contains (SavePath a) "TorrentPathName" = true \/
   Type_ a = ActionTypeWatchFolder).
Proof.
  unfold needsTorrentTmpFile.
  rewrite andb_true_iff, !orb_true_iff, !String.eqb_eq. tauto.
Qed.

(** C4, as the code has it.  With no cached temporary file, a reference to
    TorrentPathName or TorrentDataRawBytes in ExecArgs or WebhookData, a
    reference to TorrentPathName in SavePath, or the WatchFolder type makes
    [DownloadTorrentFile] the first call of [ParseMacros], before any
    substitution; in every other case (the placeholders occurring only in
    WatchFolder, Category, Tags or Label, or TorrentDataRawBytes only in
    SavePath, or a temporary file already cached) no download is made. *)
Theorem ParseMacros_download_trigger a r w :
  let trigger :=
    TorrentTmpFile r = "" /\
    (Contains (ExecArgs a) "TorrentPathName" = true \/
     Contains (ExecArgs a) "TorrentDataRawBytes" = true \/
     Contains (WebhookData a) "TorrentPathName" = true \/
     Contains (WebhookData a) "TorrentDataRawBytes" = true \/
     Contains (SavePath a) "TorrentPathName" = true \/
     Type_ a = ActionTypeWatchFolder) in
  (trigger ->
   head (calls (snd (run a r w)))
   = Some (CallDownloadTorrentFile (fst (fst (DownloadTorrentFile r w))), r)) /\
  (~ trigger -> Forall (fun e => isDownload e = false) (calls (snd (run a r w)))).
Proof.
  intros trigger; subst trigger. rewrite <- needsTorrentTmpFile_iff.
  unfold runParseMacros.
  split; intros H; parse_macros_cases (mkStore w r a []);
    try congruence; try reflexivity;
    repeat (apply Forall_app; split); repeat constructor.
Qed.


(** ** Failure of the fetch *)




(** ** The Action after the call *)

Lemma untemplated_substituted m a :
  untemplated (substituted Macro Parse m a) = untemplated a.
Proof. reflexivity. Qed.

Lemma templated_substituted m a :
  templated (substituted Macro Parse m a)
  = map (fun text => fst (Parse m text)) (templated a).
Proof. reflexivity. Qed.

(** C5, as the code has it.  [ParseMacros] works on the Action it is called
    on, not on a copy.  When it returns, every field that holds no template
    is as it was; and when it returns nil after seven successful [Parse]
    calls, each of the seven templated fields of that same Action holds the
    string [Parse] returned for its former content. *)
Theorem ParseMacros_resolves_in_place a r w :
  let out := run a r w in
  let m := NewMacro (rel (snd out)) in
  untemplated (act (snd out)) = untemplated a /\
  (fst out = None ->
   Forall (fun text => snd (Parse m text) = None) (templated a) ->
   templated (act (snd out)) = map (fun text => fst (Parse m text)) (templated a)).
Proof.
  intros out m; subst out m. unfold runParseMacros.
  parse_macros_cases (mkStore w r a []);
    (split; [reflexivity|]); intros Hnil _;
    first [ discriminate Hnil | apply templated_substituted ].
Qed.

(** ** Determinism *)

(** A call that needs neither the download nor the read is the
    substitution alone: a function of the Action and the Release. *)
Lemma run_without_fetch a r w :
  needsTorrentTmpFile a r = false ->
  needsTorrentDataRawBytes a r = false ->
  run a r w =
    (match snd (Parse (NewMacro r) (WebhookData a)) with
     | Some err =>
         Some (errors_Wrap err ("could not parse macros for action: " +:+ Name a))
     | None => None
     end,
     mkStore w r (substituted Macro Parse (NewMacro r) a) (parseEvents a r)).
Proof.
  intros Hd' Hr'. unfold runParseMacros.
  parse_macros_cases (mkStore w r a []); try congruence.
  reflexivity.
Qed.

(** ** The error [ParseMacros] returns after substituting *)

(** When no fetch fails, the outcome is decided by the last [Parse] call
    alone, the one on WebhookData: the errors of the six calls before it
    are overwritten. *)
Lemma ParseMacros_returns_last_error a r w :
  needsTorrentTmpFile a r = false ->
  needsTorrentDataRawBytes a r = false ->
  (fst (run a r w) = None <-> snd (Parse (NewMacro r) (WebhookData a)) = None).
Proof.
  intros Hd' Hr'. rewrite (run_without_fetch a r w Hd' Hr'); cbn [fst].
  destruct (snd (Parse (NewMacro r) (WebhookData a))); split; congruence.
Qed.


(** ** The calls of one [ParseMacros], in full *)

(** X1. One call of [ParseMacros] makes at most one download, then at most
    one file read, then either no [Parse] call at all (the fetch failed, an
    error is returned) or exactly seven: one for each templated field, on its
    template, in the order ExecArgs, WatchFolder, Category, Tags, Label,
    SavePath, WebhookData, all with the macro of the release as the fetch
    left it. *)
Theorem ParseMacros_call_shape a r w :
  let out := run a r w in
  exists d rd p,
    calls (snd out) = d ++ rd ++ p /\
    (d = [] \/ exists err, d = [(CallDownloadTorrentFile err, r)]) /\
    (rd = [] \/ exists name res r1, rd = [(CallReadFile name res, r1)]) /\
    ((p = [] /\ fst out <> None) \/
     p = map (fun text =>
                (CallParse text (Parse (NewMacro (rel (snd out))) text),
                 rel (snd out)))
             (templated a)).
Proof.
  intros out; subst out. unfold runParseMacros.
  parse_macros_cases (mkStore w r a []).
  - exists [(CallDownloadTorrentFile (Some e), r)], [], []. repeat split.
    + right. eexists; reflexivity.
    + left; reflexivity.
    + left. split; [reflexivity | discriminate].
  - exists [(CallDownloadTorrentFile None, r)],
           [(CallReadFile (TorrentTmpFile r1) (inl t), r1)],
           (parseEvents a (set_TorrentDataRawBytes t r1)).
    repeat split.
    + right. eexists; reflexivity.
    + right. do 3 eexists; reflexivity.
    + right. reflexivity.
  - exists [(CallDownloadTorrentFile None, r)],
           [(CallReadFile (TorrentTmpFile r1) (inr e), r1)], [].
    repeat split.
    + right. eexists; reflexivity.
    + right. do 3 eexists; reflexivity.
    + left. split; [reflexivity | discriminate].
  - exists [(CallDownloadTorrentFile None, r)], [], (parseEvents a r1).
    repeat split.
    + right. eexists; reflexivity.
    + left; reflexivity.
    + right. reflexivity.
  - exists [], [(CallReadFile (TorrentTmpFile r) (inl t), r)],
           (parseEvents a (set_TorrentDataRawBytes t r)).
    repeat split.
    + left; reflexivity.
    + right. do 3 eexists; reflexivity.
    + right. reflexivity.
  - exists [], [(CallReadFile (TorrentTmpFile r) (inr e), r)], [].
    repeat split.
    + left; reflexivity.
    + right. do 3 eexists; reflexivity.
    + left. split; [reflexivity | discriminate].
  - exists [], [], (parseEvents a r). repeat split.
    + left; reflexivity.
    + left; reflexivity.
    + right. reflexivity.
Qed.

(** X2. [ParseMacros] returns nil exactly when no download or file read it
    made returned an error and the [Parse] call on WebhookData, the last one,
    returned none. *)
Theorem ParseMacros_nil_iff a r w :
  let out := run a r w in
  fst out = None <->
  Forall (fun e => failedFetch e = false) (calls (snd out)) /\
  snd (Parse (NewMacro (rel (snd out))) (WebhookData a)) = None.
Proof.
  intros out; subst out. unfold runParseMacros.
  parse_macros_cases (mkStore w r a []).
  all: split; [intros Hnil | intros [Hf Hp]].
  all: try discriminate Hnil.
  all: try (split;
            [ repeat (apply Forall_app; split); repeat constructor
            | destruct (snd (Parse _ (WebhookData a)));
              [discriminate Hnil | reflexivity] ]).
  all: try (rewrite Hp; reflexivity).
  all: exfalso;
       repeat (apply Forall_app in Hf; destruct Hf as [Hf ?]);
       repeat match goal with
              | H : Forall _ [_] |- _ => apply Forall_inv in H; discriminate H
              end.
Qed.


(** ** The file that is read *)

Lemma parseEvents_read_nothing a r' (Q : Call * Release -> string -> Prop) :
  Forall (fun e => forall name res, fst e = CallReadFile name res -> Q e name)
         (parseEvents a r').
Proof.
  eapply Forall_impl; [apply parseEvents_isParse|].
  intros [c rc] Hc name res Heq. cbn [fst] in Heq. subst c. discriminate Hc.
Qed.

(** X3. The file [ParseMacros] reads is always the release's temporary file
    as it stands at that moment, and, as long as a download that succeeds
    caches the path, never the empty path: when the bytes are wanted and no
    file is cached, the download has been made first, in the same call. *)
Theorem ParseMacros_reads_the_cached_file a r w :
  download_caches_path ->
  Forall (fun e => forall name res,
            fst e = CallReadFile name res ->
            name = TorrentTmpFile (snd e) /\ name <> "")
         (calls (snd (run a r w))).
Proof.
  intros H. pose proof (H r w) as Hrw. unfold runParseMacros.
  parse_macros_cases (mkStore w r a []);
    repeat (apply Forall_app; split);
    try apply (parseEvents_read_nothing _ _
                 (fun e name => name = TorrentTmpFile (snd e) /\ name <> ""));
    repeat match goal with |- Forall _ _ => constructor end;
    cbn [fst snd]; intros name' res' Hc;
    try discriminate Hc; injection Hc as <- <-;
    (split; [reflexivity|]).
  1,2: exact (Hrw eq_refl).
  all: intros Hempty;
       rewrite (needsTorrentDataRawBytes_needsTorrentTmpFile a r Hr Hempty) in Hd;
       discriminate Hd.
Qed.

(** X6. A release whose temporary file is cached but whose bytes are not:
    an Action that wants the bytes (TorrentDataRawBytes in ExecArgs or
    WebhookData, or the WatchFolder type) makes [ParseMacros] read that file
    first, without any download; when the read succeeds the bytes are stored
    in the release and every field is resolved against the release that
    holds them. *)
Theorem ParseMacros_reads_without_download a r w :
  TorrentTmpFile r <> "" ->
  TorrentDataRawBytes r = [] ->
  Contains (ExecArgs a) "TorrentDataRawBytes" = true \/
  Contains (WebhookData a) "TorrentDataRawBytes" = true \/
  Type_ a = ActionTypeWatchFolder ->
  let out := run a r w in
  let read := ReadFile (TorrentTmpFile r) w in
  head (calls (snd out)) = Some (CallReadFile (TorrentTmpFile r) read, r) /\
  Forall (fun e => isDownload e = false) (calls (snd out)) /\
  forall t, read = inl t ->
    rel (snd out) = set_TorrentDataRawBytes t r /\
    calls (snd out)
    = (CallReadFile (TorrentTmpFile r) read, r)
      :: parseEvents a (set_TorrentDataRawBytes t r).
Proof.
  intros Hp Hb Hwant out read; subst out read.
  assert (Hn : needsTorrentDataRawBytes a r = true).
  { unfold needsTorrentDataRawBytes. rewrite Hb. cbn [length Z.of_nat Z.eqb andb].
    destruct Hwant as [H|[H|H]]; rewrite H, ?String.eqb_refl, ?orb_true_r; reflexivity. }
  unfold runParseMacros.
  parse_macros_cases (mkStore w r a []);
    try (rewrite (needsTorrentTmpFile_cached a r Hp) in Hd; discriminate Hd);
    try congruence.
  - split; [reflexivity|]. split; [repeat constructor|].
    intros t' Ht'. injection Ht' as <-. split; reflexivity.
  - split; [reflexivity|]. split; [repeat constructor|].
    intros t' Ht'. discriminate Ht'.
Qed.

(** X7. An Action that references the torrent only by its path (no
    TorrentDataRawBytes in ExecArgs or WebhookData, and not a WatchFolder)
    never has the file read into memory by [ParseMacros], whether or not
    the file is downloaded. *)
Theorem ParseMacros_path_only_never_reads a r w :
  Contains (ExecArgs a) "TorrentDataRawBytes" = false ->
  Contains (WebhookData a) "TorrentDataRawBytes" = false ->
  Type_ a <> ActionTypeWatchFolder ->
  let out := run a r w in
  Forall (fun e => isReadFile e = false) (calls (snd out)) /\
  (Forall (fun e => isDownload e = false) (calls (snd out)) -> rel (snd out) = r).
Proof.
  intros H1 H2 H3 out; subst out.
  assert (Hn : forall r', needsTorrentDataRawBytes a r' = false).
  { intros r'. unfold needsTorrentDataRawBytes. rewrite H1, H2.
    destruct (String.eqb_spec (Type_ a) ActionTypeWatchFolder); [contradiction|].
    apply andb_false_r. }
  unfold runParseMacros.
  parse_macros_cases (mkStore w r a []);
    try (rewrite Hn in Hr; discriminate Hr).
  all: split; [repeat (apply Forall_app; split); repeat constructor|].
  all: intros Hno; try reflexivity.
  all: exfalso;
       repeat match goal with
              | H : Forall _ (_ ++ _) |- _ => apply Forall_app in H; destruct H
              | H : Forall _ (_ :: _) |- _ => apply Forall_inv in H
              | H : isDownload (CallDownloadTorrentFile _, _) = false |- _ =>
                  discriminate H
              end.
Qed.


(** ** The trigger is a substring test *)

Lemma append_String (c : ascii) (s t : string) :
  String c s +:+ t = String c (s +:+ t).
Proof. reflexivity. Qed.

Lemma append_Empty (t : string) : "" +:+ t = t.
Proof. reflexivity. Qed.

Lemma prefix_append (sub post : string) : String.prefix sub (sub +:+ post) = true.
Proof.
  induction sub as [|c sub IH]; [destruct post; reflexivity|].
  rewrite append_String. cbn [String.prefix].
  destruct (ascii_dec c c) as [_|Hne]; [exact IH | contradiction].
Qed.

Lemma prefix_split (sub s : string) :
  String.prefix sub s = true -> exists post, s = sub +:+ post.
Proof.
  revert s. induction sub as [|c sub IH]; intros s H.
  - exists s. reflexivity.
  - destruct s as [|c' s]; [discriminate H|]. cbn [String.prefix] in H.
    destruct (ascii_dec c c') as [<-|_]; [|discriminate H].
    destruct (IH s H) as [post ->]. exists post. reflexivity.
Qed.

(** [Contains s substr] holds exactly when [substr] occurs in [s]. *)
Lemma Contains_iff (s sub : string) :
  Contains s sub = true <-> exists pre post, s = pre +:+ sub +:+ post.
Proof.
  split.
  - induction s as [|c s IH]; cbn [Contains]; intros H.
    + rewrite orb_false_r in H. apply prefix_split in H as [post ->].
      exists "", post. reflexivity.
    + apply orb_prop in H as [H|H].
      * apply prefix_split in H as [post ->]. exists "", post. reflexivity.
      * destruct (IH H) as (pre & post & ->).
        exists (String c pre), post. reflexivity.
  - intros (pre & post & ->). induction pre as [|c pre IH].
    + rewrite append_Empty. destruct (sub +:+ post) eqn:E; cbn [Contains];
        rewrite <- E, prefix_append; reflexivity.
    + rewrite append_String. cbn [Contains]. rewrite IH. apply orb_true_r.
Qed.

(** X4. The test that triggers the download looks for the placeholder's
    name as a plain substring, not for a placeholder: with no temporary file
    cached, an ExecArgs or WebhookData that merely contains the text
    TorrentPathName or TorrentDataRawBytes anywhere, or a SavePath that
    contains TorrentPathName, makes [DownloadTorrentFile] the first call,
    whether or not the text stands inside [{{ }}]. *)
Theorem ParseMacros_plain_mention_downloads a r w (pre post : string) :
  TorrentTmpFile r = "" ->
  ExecArgs a = pre +:+ "TorrentPathName" +:+ post \/
  ExecArgs a = pre +:+ "TorrentDataRawBytes" +:+ post \/
  WebhookData a = pre +:+ "TorrentPathName" +:+ post \/
  WebhookData a = pre +:+ "TorrentDataRawBytes" +:+ post \/
  SavePath a = pre +:+ "TorrentPathName" +:+ post ->
  head (calls (snd (run a r w)))
  = Some (CallDownloadTorrentFile (fst (fst (DownloadTorrentFile r w))), r).
Proof.
  intros Hp Hm.
  assert (Hn : needsTorrentTmpFile a r = true).
  { apply needsTorrentTmpFile_iff. split; [exact Hp|].
    destruct Hm as [H|[H|[H|[H|H]]]];
      [left | right; left | do 2 right; left | do 3 right; left | do 4 right; left];
      apply Contains_iff; exists pre, post; exact H. }
  unfold runParseMacros.
  parse_macros_cases (mkStore w r a []); try congruence; reflexivity.
Qed.

(** ** What a call without download leaves alone *)

(** X5. [ParseMacros] reaches the outside world and the identity of the
    release only through [DownloadTorrentFile]: in a call that made no
    download the world is as it was, the release keeps its name, its source
    locator and its temporary file, and a byte cache that was populated is
    never overwritten (the whole release is unchanged). *)
Theorem ParseMacros_without_download_frame a r w :
  Forall (fun e => isDownload e = false) (calls (snd (run a r w))) ->
  world (snd (run a r w)) = w /\
  TorrentName (rel (snd (run a r w))) = TorrentName r /\
  TorrentURL (rel (snd (run a r w))) = TorrentURL r /\
  TorrentTmpFile (rel (snd (run a r w))) = TorrentTmpFile r /\
  (TorrentDataRawBytes r <> [] -> rel (snd (run a r w)) = r).
Proof.
  unfold runParseMacros.
  parse_macros_cases (mkStore w r a []); intros Hno.
  all: try (exfalso;
            repeat match goal with
                   | H : Forall _ (_ ++ _) |- _ => apply Forall_app in H; destruct H
                   | H : Forall _ (_ :: _) |- _ => apply Forall_inv in H
                   | H : isDownload (CallDownloadTorrentFile _, _) = false |- _ =>
                       discriminate H
                   end; fail).
  all: repeat split; intros Hb;
       try (rewrite (needsTorrentDataRawBytes_cached a r Hb) in Hr; discriminate Hr).
Qed.

(** ** The type of an Action *)

(** [ParseMacros] compares the type with WATCH_FOLDER and with nothing
    else: between two types other than WATCH_FOLDER the guards of the
    download and of the read do not tell. *)
Lemma needsTorrentTmpFile_set_Type t a r :
  Type_ a <> ActionTypeWatchFolder -> t <> ActionTypeWatchFolder ->
  needsTorrentTmpFile (set_Type t a) r = needsTorrentTmpFile a r.
Proof.
  intros Ha Ht. apply String.eqb_neq in Ha, Ht.
  unfold needsTorrentTmpFile.
  cbn [set_Type Type_ ExecArgs WatchFolder Category Tags Label SavePath
       WebhookData].
  rewrite Ha, Ht. reflexivity.
Qed.

Lemma needsTorrentDataRawBytes_set_Type t a r :
  Type_ a <> ActionTypeWatchFolder -> t <> ActionTypeWatchFolder ->
  needsTorrentDataRawBytes (set_Type t a) r = needsTorrentDataRawBytes a r.
Proof.
  intros Ha Ht. apply String.eqb_neq in Ha, Ht.
  unfold needsTorrentDataRawBytes.
  cbn [set_Type Type_ ExecArgs WatchFolder Category Tags Label SavePath
       WebhookData].
  rewrite Ha, Ht. reflexivity.
Qed.

(** A call on an Action of another type, WATCH_FOLDER apart, goes the same
    way: the same error, the same world, Release and calls, and the same
    Action but for its type. *)
Lemma run_set_Type t a r w :
  Type_ a <> ActionTypeWatchFolder -> t <> ActionTypeWatchFolder ->
  fst (run (set_Type t a) r w) = fst (run a r w) /\
  world (snd (run (set_Type t a) r w)) = world (snd (run a r w)) /\
  rel (snd (run (set_Type t a) r w)) = rel (snd (run a r w)) /\
  act (snd (run (set_Type t a) r w)) = set_Type t (act (snd (run a r w))) /\
  calls (snd (run (set_Type t a) r w)) = calls (snd (run a r w)).
Proof.
  intros Ha Ht. unfold runParseMacros.
  parse_macros_cases (mkStore w r a []);
    parse_macros_cases (mkStore w r (set_Type t a) []);
    rewrite ?needsTorrentTmpFile_set_Type, ?needsTorrentDataRawBytes_set_Type
      in * by assumption;
    try congruence;
    do 2 (repeat match goal with
                 | H : ?x = _, H' : ?x = _ |- _ => rewrite H in H'
                 end;
          simplify_eq);
    (split; [reflexivity|]); (split; [reflexivity|]);
    (split; [reflexivity|]); (split; reflexivity).
Qed.

(** [ParseMacros] writes the seven templated fields and no other: the
    integer fields keep their values, and the [ReAnnounce] fields with
    them. *)
Lemma run_reannounce a r w :
  reannounce (act (snd (run a r w))) = reannounce a.
Proof.
  unfold runParseMacros.
  parse_macros_cases (mkStore w r a []); reflexivity.
Qed.

Lemma run_wellTyped a r w :
  wellTyped (act (snd (run a r w))) = wellTyped a.
Proof.
  unfold runParseMacros.
  parse_macros_cases (mkStore w r a []); reflexivity.
Qed.

End EngineFacts.

(** ** Two runs of [ParseMacros] *)

(** Two runs are compared across everything that lies outside the Action
    and the Release: each has its own world, its own download and file
    read, and its own Macro resolution. *)
Section TwoRuns.
Import domain.
Context {World1 World2 : Type}.
Variable DownloadTorrentFile1 : Release -> World1 -> option error * Release * World1.
Variable DownloadTorrentFile2 : Release -> World2 -> option error * Release * World2.
Variable ReadFile1 : string -> World1 -> list Byte.byte + error.
Variable ReadFile2 : string -> World2 -> list Byte.byte + error.
Variables Macro1 Macro2 : Type.
Variable NewMacro1 : Release -> Macro1.
Variable NewMacro2 : Release -> Macro2.
Variable Parse1 : Macro1 -> string -> string * option error.
Variable Parse2 : Macro2 -> string -> string * option error.

Local Abbreviation run1 :=
  (runParseMacros DownloadTorrentFile1 ReadFile1 Macro1 NewMacro1 Parse1).
Local Abbreviation run2 :=
  (runParseMacros DownloadTorrentFile2 ReadFile2 Macro2 NewMacro2 Parse2).


End TwoRuns.

(** ** The engine at concrete Actions and Releases *)

Section EngineExamples.
Import domain Sim.

(** C1. Atomic resolution fails on the code.  The Exec action names an
    unknown macro in ExecArgs, so the first [Parse] call returns an error;
    the last call, on a valid WebhookData, succeeds and overwrites it:
    [ParseMacros] returns nil, and the Action is left with the partial
    result, ExecArgs emptied and WebhookData resolved. *)
Theorem ParseMacros_discards_earlier_error :
  let out := run execUnknown fresh offline in
  head (calls (snd out))
  = Some (CallParse "--name {{.Nope}}"
            ("", Some (errors_Wrap (errors_New "can't evaluate field Nope")
                                   "could not parse macro")),
          fresh) /\
  last (calls (snd out))
  = Some (CallParse "{{.TorrentName}}" ("ubuntu", None), fresh) /\
  fst out = None /\
  ExecArgs (act (snd out)) = "" /\
  WebhookData (act (snd out)) = "ubuntu".
Proof. cbv zeta. repeat split; vm_compute; reflexivity. Qed.

(** The simulated download keeps the contract of a successful download. *)
Lemma Sim_download_caches_path :
  download_caches_path DownloadTorrentFile.
Proof.
  intros r w. unfold DownloadTorrentFile.
  destruct (String.eqb (TorrentURL r) ""); [discriminate|].
  destruct (remote w !! TorrentURL r); cbn; [intros _|]; discriminate.
Qed.

(** The simulated download leaves the bytes already read where they are. *)
Lemma Sim_download_keeps_bytes :
  download_keeps_bytes DownloadTorrentFile.
Proof.
  intros r w _. unfold DownloadTorrentFile.
  destruct (String.eqb (TorrentURL r) ""); [reflexivity|].
  destruct (remote w !! TorrentURL r); reflexivity.
Qed.

Lemma ParseMacros_fetches_only_while_uncached_witness :
  match runEach [hook; hook; hook] fresh online with
  | (_, r', _, cs) =>
      Forall guardedCall cs /\
      (length (List.filter fetched cs) <= 1)%nat /\
      (length (List.filter loaded cs) <= 1)%nat /\
      TorrentDataRawBytes r' = payload
  end.
Proof.
  pose proof (ParseMacros_fetches_only_while_uncached
                DownloadTorrentFile ReadFile Macro NewMacro Parse
                [hook; hook; hook] fresh online) as H.
  unfold runEach.
  destruct (runParseMacrosEach DownloadTorrentFile ReadFile Macro NewMacro Parse
              [hook; hook; hook] fresh online) as [[[results r'] w'] cs] eqn:E.
  destruct H as (Hg & _ & _ & _ & Hpath).
  destruct (Hpath Sim_download_caches_path) as (Hf & Hl & Hb).
  split; [exact Hg|]. split; [exact Hf|]. split; [exact Hl|].
  apply (Hb "/tmp/autobrr-ubuntu" payload
            {| TorrentName := "ubuntu"; TorrentURL := "https://tracker.test/dl/1";
               TorrentTmpFile := "/tmp/autobrr-ubuntu";
               TorrentDataRawBytes := [] |}); [|discriminate].
  assert (Hcs : cs = snd (runEach [hook; hook; hook] fresh online))
    by (unfold runEach; rewrite E; reflexivity).
  rewrite Hcs. vm_compute. right. left. reflexivity.
Defined.

(** The testable property of at-most-once fetch: three Actions whose
    templates reference the raw payload, one fresh release; the source is
    fetched once, the file read once. *)
Example three_hooks_fetch_once :
  match runEach [hook; hook; hook] fresh online with
  | (results, r', _, cs) =>
      map fst results = [None; None; None] /\
      List.filter fetched cs = [(CallDownloadTorrentFile None, fresh)] /\
      length (List.filter isReadFile cs) = 1%nat /\
      r' = cached
  end.
Proof. vm_compute. repeat split. Qed.

(** A download that fails caches nothing, so the next call tries again. *)
Example three_hooks_offline_retry :
  match runEach [hook; hook; hook] fresh offline with
  | (results, r', _, cs) =>
      length (List.filter isDownload cs) = 3%nat /\
      List.filter fetched cs = [] /\
      Forall (fun res => fst res <> None) results /\
      r' = fresh
  end.
Proof.
  vm_compute. repeat split. repeat constructor; discriminate.
Qed.

Lemma ParseMacros_WatchFolder_forces_fetch_witness :
  head (calls (snd (run watch fresh online)))
    = Some (CallDownloadTorrentFile None, fresh) /\
  TorrentDataRawBytes (rel (snd (run watch fresh online))) = payload.
Proof.
  destruct (ParseMacros_WatchFolder_forces_fetch
              DownloadTorrentFile ReadFile Macro NewMacro Parse
              watch fresh online eq_refl eq_refl) as [Hhead Hread].
  split; [exact Hhead|].
  exact (proj2 (Hread eq_refl eq_refl) payload eq_refl).
Defined.

(** C4 fails on the code: the category of this Action references the
    torrent file path and the release has no temporary file, yet
    [ParseMacros] makes no download and substitutes the empty path. *)
Lemma ParseMacros_category_reference_no_fetch :
  TorrentTmpFile fresh = "" /\
  Contains (Category categoryPath) "TorrentPathName" = true /\
  List.filter isDownload (calls (snd (run categoryPath fresh online))) = [] /\
  fst (run categoryPath fresh online) = None /\
  Category (act (snd (run categoryPath fresh online))) = "".
Proof.
  split; [reflexivity|]. split; [reflexivity|].
  split; [vm_compute; reflexivity | split; reflexivity].
Qed.

(** C5 fails on the code: after the call the Action itself holds the
    resolved watch folder, not the template it was configured with. *)
Lemma ParseMacros_overwrites_the_Action :
  fst (run watch cached offline) = None /\
  act (snd (run watch cached offline)) <> watch /\
  WatchFolder watch = "/watch/{{.TorrentName}}.torrent" /\
  WatchFolder (act (snd (run watch cached offline))) = "/watch/ubuntu.torrent".
Proof.
  split; [reflexivity|]. split; [|split; reflexivity].
  intros H. apply (f_equal WatchFolder) in H. discriminate H.
Qed.


(** The other failure: the temporary file is cached but cannot be read. *)
Example ParseMacros_read_failure :
  fst (run watch stale offline)
  = Some (errors_Wrap
            (errors_New "open /tmp/autobrr-gone: no such file or directory")
            "could not read torrent file: /tmp/autobrr-gone") /\
  act (snd (run watch stale offline)) = watch.
Proof. split; reflexivity. Qed.



(** C7 fails on the code as the claim has it: ActionType is not closed.
    An Action whose type is none of the sixteen declared constants is an
    Action like any other; [ParseMacros] resolves its templates and returns
    nil. *)
Lemma ActionType_is_not_closed :
  let a := set_ExecArgs "--name {{.TorrentName}}" (blank "custom" "CUSTOM") in
  ~ In (Type_ a) ActionType_constants /\
  wellTyped a = true /\
  fst (run a fresh offline) = None /\
  Type_ (act (snd (run a fresh offline))) = "CUSTOM" /\
  ExecArgs (act (snd (run a fresh offline))) = "--name ubuntu".
Proof.
  cbv zeta. split.
  - intros H. unfold ActionType_constants in H. cbn [In] in H.
    repeat (destruct H as [H|H]; [discriminate H|]). destruct H.
  - vm_compute.
    split; [reflexivity|]. split; [reflexivity|]. split; reflexivity.
Qed.

Lemma ParseMacros_reads_the_cached_file_witness :
  Forall (fun e => forall name res,
            fst e = CallReadFile name res ->
            name = TorrentTmpFile (snd e) /\ name <> "")
         (calls (snd (run hook fresh online))).
Proof.
  exact (ParseMacros_reads_the_cached_file
           DownloadTorrentFile ReadFile Macro NewMacro Parse
           hook fresh online Sim_download_caches_path).
Defined.

Lemma ParseMacros_plain_mention_downloads_witness :
  head (calls (snd (run plainMention fresh online)))
  = Some (CallDownloadTorrentFile
            (fst (fst (DownloadTorrentFile fresh online))), fresh).
Proof.
  apply (ParseMacros_plain_mention_downloads
           DownloadTorrentFile ReadFile Macro NewMacro Parse
           plainMention fresh online "echo " "").
  - reflexivity.
  - left. reflexivity.
Defined.

(** The text is no placeholder: it is substituted as it stands, but the
    file has been downloaded for it. *)
Example plain_mention_is_kept :
  ExecArgs (act (snd (run plainMention fresh online))) = "echo TorrentPathName" /\
  TorrentTmpFile (rel (snd (run plainMention fresh online))) = "/tmp/autobrr-ubuntu".
Proof. split; vm_compute; reflexivity. Qed.

Lemma ParseMacros_without_download_frame_witness :
  world (snd (run execUnknown fresh offline)) = offline /\
  TorrentName (rel (snd (run execUnknown fresh offline))) = TorrentName fresh /\
  TorrentURL (rel (snd (run execUnknown fresh offline))) = TorrentURL fresh /\
  TorrentTmpFile (rel (snd (run execUnknown fresh offline))) = TorrentTmpFile fresh /\
  (TorrentDataRawBytes fresh <> [] -> rel (snd (run execUnknown fresh offline)) = fresh).
Proof.
  apply (ParseMacros_without_download_frame
           DownloadTorrentFile ReadFile Macro NewMacro Parse
           execUnknown fresh offline).
  vm_compute. repeat constructor.
Defined.

Lemma ParseMacros_reads_without_download_witness :
  head (calls (snd (run hook pathOnly onDisk)))
  = Some (CallReadFile "/tmp/autobrr-ubuntu" (inl payload), pathOnly) /\
  rel (snd (run hook pathOnly onDisk)) = cached.
Proof.
  destruct (ParseMacros_reads_without_download
              DownloadTorrentFile ReadFile Macro NewMacro Parse
              hook pathOnly onDisk) as (Hhead & _ & Hread).
  - discriminate.
  - reflexivity.
  - right. left. reflexivity.
  - split; [exact Hhead|].
    exact (proj1 (Hread payload eq_refl)).
Defined.

Lemma ParseMacros_path_only_never_reads_witness :
  Forall (fun e => isReadFile e = false) (calls (snd (run execPath fresh online))) /\
  TorrentDataRawBytes (rel (snd (run execPath fresh online))) = [].
Proof.
  split; [|reflexivity].
  apply (ParseMacros_path_only_never_reads
           DownloadTorrentFile ReadFile Macro NewMacro Parse
           execPath fresh online); [reflexivity | reflexivity | discriminate].
Defined.

End EngineExamples.

(** ** The declared types *)

Section Declarations.
Import domain.
Context {World : Type}.
Variable DownloadTorrentFile : Release -> World -> option error * Release * World.
Variable ReadFile : string -> World -> list Byte.byte + error.
Variable Macro : Type.
Variable NewMacro : Release -> Macro.
Variable Parse : Macro -> string -> string * option error.

Local Abbreviation run :=
  (runParseMacros DownloadTorrentFile ReadFile Macro NewMacro Parse).

Lemma ActionType_constants_NoDup : NoDup ActionType_constants.
Proof.
  unfold ActionType_constants.
  repeat (constructor;
          [ intros H; apply list_elem_of_In in H; cbn [In] in H;
            repeat (destruct H as [H|H]; [discriminate H|]); destruct H |]).
  constructor.
Qed.

(** The declared constants and the variants of the specification carry the
    same names. *)
Lemma ActionType_constants_names (n : string) :
  In n (map Spec.normalize Spec.ActionType_variants) <->
  In n (map Spec.normalize ActionType_constants).
Proof.
  split; intros H; vm_compute in H |- *;
    repeat (destruct H as [<-|H]; [repeat first [left; reflexivity | right]|]);
    destruct H.
Qed.

(** An Action is the values of its thirty-two fields. *)
Lemma Action_values_inj (a b : Action) :
  Action_values a = Action_values b -> a = b.
Proof.
  destruct a, b; unfold Action_values;
    cbn [ID Name Type_ Enabled ExecCmd ExecArgs WatchFolder Category Tags
         Label SavePath Paused IgnoreRules SkipHashCheck ContentLayout
         LimitUploadSpeed LimitDownloadSpeed LimitRatio LimitSeedTime
         ReAnnounceSkip ReAnnounceDelete ReAnnounceInterval
         ReAnnounceMaxAttempts WebhookHost WebhookType WebhookMethod
         WebhookData WebhookHeaders ExternalDownloadClientID FilterID
         ClientID Client].
  intros H. injection H. intros. subst. reflexivity.
Qed.

Lemma wellTyped_reannounce (a : Action) :
  wellTyped a = true ->
  (- 2 ^ 63 <= ReAnnounceInterval a < 2 ^ 63)%Z /\
  (- 2 ^ 63 <= ReAnnounceMaxAttempts a < 2 ^ 63)%Z.
Proof.
  unfold wellTyped, Action_values. cbn [forallb snd inRange].
  rewrite !andb_true_iff. lia.
Qed.

(** C7, as the code has it.  [action.go] declares sixteen ActionType
    constants, pairwise distinct, and they carry the names of the sixteen
    variants of the specification, one each.  The type itself is a string
    type and not closed: [ParseMacros] tells WATCH_FOLDER from the rest and
    treats every other type, declared or not, alike.  The fields of an
    Action named [ReAnnounce...] are four, skip and delete (bool), interval
    and max attempts (int64, within 64 bits on a well-typed Action), named
    and typed as the policy block of the specification; [ParseMacros] leaves
    them as they are. *)
Theorem ActionType_constants_and_reannounce_fields :
  (length ActionType_constants = 16%nat /\
   NoDup ActionType_constants /\
   length Spec.ActionType_variants = 16%nat /\
   NoDup (map Spec.normalize Spec.ActionType_variants) /\
   (forall n, In n (map Spec.normalize Spec.ActionType_variants) <->
              In n (map Spec.normalize ActionType_constants))) /\
  (forall (t : ActionType) a r w,
     Type_ a <> ActionTypeWatchFolder -> t <> ActionTypeWatchFolder ->
     fst (run (set_Type t a) r w) = fst (run a r w) /\
     world (snd (run (set_Type t a) r w)) = world (snd (run a r w)) /\
     rel (snd (run (set_Type t a) r w)) = rel (snd (run a r w)) /\
     act (snd (run (set_Type t a) r w)) = set_Type t (act (snd (run a r w))) /\
     calls (snd (run (set_Type t a) r w)) = calls (snd (run a r w))) /\
  ((forall a,
      reannounce a
      = [ ("ReAnnounceSkip", VBool (ReAnnounceSkip a));
          ("ReAnnounceDelete", VBool (ReAnnounceDelete a));
          ("ReAnnounceInterval", VInt64 (ReAnnounceInterval a));
          ("ReAnnounceMaxAttempts", VInt64 (ReAnnounceMaxAttempts a)) ]) /\
   (forall a,
      map (fun nv => (Spec.normalize (Spec.stripPrefix "ReAnnounce" (fst nv)),
                      typeOf (snd nv)))
          (reannounce a)
      = map (fun nt => (Spec.normalize (fst nt), snd nt)) Spec.reannounce_block) /\
   (forall a b, Action_values a = Action_values b -> a = b) /\
   (forall a, wellTyped a = true ->
      (- 2 ^ 63 <= ReAnnounceInterval a < 2 ^ 63)%Z /\
      (- 2 ^ 63 <= ReAnnounceMaxAttempts a < 2 ^ 63)%Z) /\
   (forall a r w,
      reannounce (act (snd (run a r w))) = reannounce a /\
      wellTyped (act (snd (run a r w))) = wellTyped a)).
Proof.
  split; [|split].
  - split; [reflexivity|]. split; [exact ActionType_constants_NoDup|].
    split; [reflexivity|]. split; [|exact ActionType_constants_names].
    vm_compute.
    repeat (constructor;
            [ intros H; apply list_elem_of_In in H; cbn [In] in H;
              repeat (destruct H as [H|H]; [discriminate H|]); destruct H |]).
    constructor.
  - intros t a r w Ha Ht. apply run_set_Type; assumption.
  - split; [reflexivity|]. split; [reflexivity|].
    split; [exact Action_values_inj|]. split; [exact wellTyped_reannounce|].
    intros a r w. split; [apply run_reannounce | apply run_wellTyped].
Qed.

End Declarations.

(** ** The Pushover sender *)

Section Pushover.
Import notification.

Lemma rangeEvents_In (events : list string) (event : NotificationEvent) :
  rangeEvents events event = true <-> In event events.
Proof.
  induction events as [|e rest IH]; cbn [rangeEvents In].
  - split; [discriminate | intros []].
  - destruct (String.eqb_spec e event) as [->|Hne].
    + split; [left; reflexivity | reflexivity].
    + rewrite IH. split; [right; assumption | intros [H|H]; [contradiction | exact H]].
Qed.

Lemma isEnabled_true (s : pushoverSender) :
  fst (isEnabled s) = true <->
  Enabled (Settings s) = true /\ APIKey (Settings s) <> "" /\ Token (Settings s) <> "".
Proof.
  unfold isEnabled.
  destruct (Enabled (Settings s));
    destruct (String.eqb_spec (APIKey (Settings s)) "") as [Ha|Ha];
    destruct (String.eqb_spec (Token (Settings s)) "") as [Ht|Ht];
    cbn [fst]; split; try discriminate; try tauto;
    intros (H1 & H2 & H3); congruence.
Qed.

(** C9. [CanSend(event)] is true exactly when the sender is enabled, its
    API key and its token are non-empty, and the event's string is one of
    [Settings.Events]. *)
Theorem CanSend_true_iff (s : pushoverSender) (event : NotificationEvent) :
  fst (CanSend s event) = true <->
  Enabled (Settings s) = true /\
  APIKey (Settings s) <> "" /\
  Token (Settings s) <> "" /\
  In event (Events (Settings s)).
Proof.
  unfold CanSend, isEnabledEvent.
  rewrite <- rangeEvents_In.
  pose proof (isEnabled_true s) as He.
  destruct (fst (isEnabled s));
    destruct (rangeEvents (Events (Settings s)) event); cbn [fst];
    split; try discriminate; try tauto; intros (H1 & H2 & H3 & H4);
    try discriminate H4.
  all: destruct He as [_ He];
       specialize (He (conj H1 (conj H2 H3))); discriminate He.
Qed.

Section Send.
Variable NotificationPayload : Type.
Variable BuildTitle : NotificationEvent -> string.
Variable BuildBody : NotificationPayload -> string.
Variable time_Now : Z.
Variable Values_Encode : gmap string (list string) -> string.
Variable http_NewRequest : string -> string -> string -> Request + error.
Variable ReadCloser : Type.
Variable client_Do : Request -> (Z * ReadCloser) + error.
Variable io_ReadAll : ReadCloser -> list Byte.byte + error.
Variable fmt_Request : Request -> string.

Local Abbreviation sendMessage :=
  (notification.sendMessage NotificationPayload BuildTitle BuildBody time_Now).
Local Abbreviation Send :=
  (notification.Send NotificationPayload BuildTitle BuildBody time_Now
     Values_Encode http_NewRequest ReadCloser client_Do io_ReadAll fmt_Request).

Lemma sendData_urgent (m : pushoverMessage) :
  mPriority m = 2 ->
  sendData m !! "expire" = Some ["3600"] /\
  sendData m !! "retry" = Some ["60"].
Proof.
  intros H. unfold sendData, Values_Set. rewrite H; cbn [Z.eqb Pos.eqb].
  split.
  - rewrite lookup_insert_ne by discriminate. apply lookup_insert_eq.
  - apply lookup_insert_eq.
Qed.

Lemma sendData_not_urgent (m : pushoverMessage) :
  mPriority m <> 2 ->
  sendData m !! "expire" = None /\ sendData m !! "retry" = None.
Proof.
  intros H. unfold sendData, Values_Set.
  destruct (Z.eqb_spec (mPriority m) 2) as [E|_]; [contradiction|].
  split; rewrite !lookup_insert_ne by discriminate; apply lookup_empty.
Qed.

(** C10. [Send] returns nil exactly when the request is built, sent and
    answered, the body is read, and the status code is 200; any other
    status code, 2xx ones included, and any failure to build the request,
    to send it or to read the body gives an error.  The form sent has
    expire=3600 and retry=60 when the configured priority is 2, and has
    neither key otherwise. *)
Theorem Send_nil_iff_status_200 (s : pushoverSender)
    (event : NotificationEvent) (payload : NotificationPayload) :
  let data := sendData (sendMessage s event payload) in
  (fst (Send s event payload) = None <->
   exists req res body,
     http_NewRequest "POST" (baseUrl s) (Values_Encode data) = inl req /\
     client_Do (Header_Set "User-Agent" "autobrr"
                  (Header_Set "Content-Type"
                     "application/x-www-form-urlencoded" req)) = inl res /\
     io_ReadAll (snd res) = inl body /\
     fst res = 200) /\
  (Priority (Settings s) = 2 ->
     data !! "expire" = Some ["3600"] /\ data !! "retry" = Some ["60"]) /\
  (Priority (Settings s) <> 2 ->
     data !! "expire" = None /\ data !! "retry" = None).
Proof.
  intros data; subst data.
  split; [|split; intros H;
             [apply sendData_urgent | apply sendData_not_urgent]; exact H].
  unfold notification.Send.
  destruct (http_NewRequest _ _ _) as [req|e1]; cbn [fst].
  2: { split; [discriminate|]. intros (? & ? & ? & H & _). discriminate H. }
  destruct (client_Do _) as [res|e2] eqn:Edo; cbn [fst].
  2: { split; [discriminate|].
       intros (req' & ? & ? & H1 & H2 & _).
       injection H1 as <-. rewrite Edo in H2. discriminate H2. }
  destruct (io_ReadAll _) as [body|e3] eqn:Eread; cbn [fst].
  2: { split; [discriminate|].
       intros (req' & res' & ? & H1 & H2 & H3 & _).
       injection H1 as <-. rewrite Edo in H2. injection H2 as <-.
       rewrite Eread in H3. discriminate H3. }
  unfold http_StatusOK.
  destruct (Z.eqb_spec (fst res) 200) as [Hok|Hbad]; cbn [negb fst].
  - split; [|reflexivity]. intros _. exists req, res, body.
    repeat split; assumption.
  - split; [discriminate|].
    intros (req' & res' & ? & H1 & H2 & _ & H4).
    injection H1 as <-. rewrite Edo in H2. injection H2 as <-.
    contradiction.
Qed.
End Send.

(** The sender at concrete status codes and events. *)
Example Send_200_is_nil :
  fst (SimPushover.send 200 0 "PUSH_APPROVED") = None.
Proof. reflexivity. Qed.

Example Send_other_2xx_is_error :
  fst (SimPushover.send 201 0 "PUSH_APPROVED") <> None /\
  fst (SimPushover.send 204 2 "PUSH_APPROVED") <> None.
Proof. split; discriminate. Qed.

Example CanSend_listed_event :
  fst (CanSend (SimPushover.sender 0) "PUSH_ERROR") = true /\
  fst (CanSend (SimPushover.sender 0) "IRC_DISCONNECTED") = false.
Proof. split; reflexivity. Qed.


(** ** More on the sender *)

(** X13. [CanSend] writes what [isEnabled] writes and nothing else: nothing
    for a disabled sender or a configured one; for an enabled sender without
    API key one warning about the API key, whatever the token is; for an
    enabled sender with an API key and no token one warning about the user
    key.  Whenever a warning is written the answer is false. *)
Theorem CanSend_warns_about_missing_keys (s : pushoverSender)
    (event : NotificationEvent) :
  snd (CanSend s event) = snd (isEnabled s) /\
  (snd (CanSend s event) = [] <->
   Enabled (Settings s) = false \/
   (APIKey (Settings s) <> "" /\ Token (Settings s) <> "")) /\
  (Enabled (Settings s) = true -> APIKey (Settings s) = "" ->
   CanSend s event = (false, [(WarnLevel, "pushover missing api key")])) /\
  (Enabled (Settings s) = true -> APIKey (Settings s) <> "" ->
   Token (Settings s) = "" ->
   CanSend s event = (false, [(WarnLevel, "pushover missing user key")])) /\
  (snd (CanSend s event) <> [] -> fst (CanSend s event) = false).
Proof.
  unfold CanSend, isEnabled.
  destruct (Enabled (Settings s));
    destruct (String.eqb_spec (APIKey (Settings s)) "") as [Ha|Ha];
    destruct (String.eqb_spec (Token (Settings s)) "") as [Ht|Ht];
    cbn [fst snd];
    try destruct (isEnabledEvent s event); cbn [fst snd].
  all: repeat match goal with
              | |- _ /\ _ => split
              | |- _ <-> _ => split
              end.
  all: intros; try reflexivity; try congruence; try tauto; try discriminate.
  all: match goal with
       | H : _ \/ _ |- _ => destruct H as [H|[H1 H2]]; [discriminate H | contradiction]
       end.
Qed.

Section SendMore.
Variable NotificationPayload : Type.
Variable BuildTitle : NotificationEvent -> string.
Variable BuildBody : NotificationPayload -> string.
Variable time_Now : Z.
Variable Values_Encode : gmap string (list string) -> string.
Variable http_NewRequest http_NewRequest' : string -> string -> string -> Request + error.
Variable ReadCloser : Type.
Variable client_Do client_Do' : Request -> (Z * ReadCloser) + error.
Variable io_ReadAll : ReadCloser -> list Byte.byte + error.
Variable fmt_Request : Request -> string.

Local Abbreviation sendMessage :=
  (notification.sendMessage NotificationPayload BuildTitle BuildBody time_Now).
Local Abbreviation SendWith newRequest do :=
  (notification.Send NotificationPayload BuildTitle BuildBody time_Now
     Values_Encode newRequest ReadCloser do io_ReadAll fmt_Request).
Local Abbreviation Send := (SendWith http_NewRequest client_Do).

(** X8. The form [Send] builds: the API key goes out as [token] and the
    token as [user]; message and title are what the builder returned;
    priority and timestamp are in decimal; html is 1; every key has one
    value; and the keys are these seven, with expire and retry added when
    the priority is 2. *)
Theorem Send_form_fields (s : pushoverSender) (event : NotificationEvent)
    (payload : NotificationPayload) :
  let data := sendData (sendMessage s event payload) in
  data !! "token" = Some [APIKey (Settings s)] /\
  data !! "user" = Some [Token (Settings s)] /\
  data !! "message" = Some [BuildBody payload] /\
  data !! "priority" = Some [pretty (Priority (Settings s))] /\
  data !! "title" = Some [BuildTitle event] /\
  data !! "timestamp" = Some [pretty time_Now] /\
  data !! "html" = Some ["1"] /\
  dom data =
    {[ "token"; "user"; "message"; "priority"; "title"; "timestamp"; "html" ]}
    ∪ (if (Priority (Settings s) =? 2)%Z
       then {[ "expire"; "retry" ]} else (∅ : gset string)).
Proof.
  intros data; subst data.
  unfold notification.sendMessage, sendData, Values_Set;
    cbn [mToken mUser mMessage mPriority mTitle mTimestamp mHtml].
  destruct (Priority (Settings s) =? 2)%Z.
  all: repeat split;
       try (rewrite !lookup_insert_ne by discriminate; apply lookup_insert_eq).
  all: rewrite !dom_insert_L, dom_empty_L; set_solver.
Qed.

(** The request [client.Do] receives: what [http.NewRequest] returned, with
    the two headers set. *)
Lemma Header_Set_sent (req : Request) :
  let sent := Header_Set "User-Agent" "autobrr"
                (Header_Set "Content-Type" "application/x-www-form-urlencoded" req) in
  Header sent !! "Content-Type" = Some ["application/x-www-form-urlencoded"] /\
  Header sent !! "User-Agent" = Some ["autobrr"] /\
  (forall key, key <> "Content-Type" -> key <> "User-Agent" ->
               Header sent !! key = Header req !! key) /\
  Method sent = Method req /\ URL sent = URL req /\ Body sent = Body req.
Proof.
  unfold Header_Set, Values_Set; cbn [Header Method URL Body].
  split; [rewrite lookup_insert_ne by discriminate; apply lookup_insert_eq|].
  split; [apply lookup_insert_eq|].
  split; [|repeat split].
  intros key H1 H2. rewrite !lookup_insert_ne by congruence. reflexivity.
Qed.

(** X9. [Send] hands [client.Do] one kind of request only: one that says
    Content-Type application/x-www-form-urlencoded and User-Agent autobrr.
    Two HTTP clients that answer alike on such requests cannot be told apart
    by [Send]: same error, same log. *)
Theorem Send_asks_with_headers (s : pushoverSender) (event : NotificationEvent)
    (payload : NotificationPayload) :
  (forall req,
     Header req !! "Content-Type" = Some ["application/x-www-form-urlencoded"] ->
     Header req !! "User-Agent" = Some ["autobrr"] ->
     client_Do req = client_Do' req) ->
  SendWith http_NewRequest client_Do s event payload
  = SendWith http_NewRequest client_Do' s event payload.
Proof.
  intros Hsame. unfold notification.Send.
  destruct (http_NewRequest _ _ _) as [req|e]; [|reflexivity].
  destruct (Header_Set_sent req) as (Hct & Hua & _).
  rewrite (Hsame _ Hct Hua). reflexivity.
Qed.

(** X15. A sender made by [NewPushoverSender] carries the settings it was
    given and posts to the Pushover endpoint: [Send] asks [http.NewRequest]
    for a POST to https://api.pushover.net/1/messages.json and for nothing
    else, so two transports that agree on such requests cannot be told
    apart. *)
Theorem NewPushoverSender_posts_to_pushover (settings : Notification)
    (event : NotificationEvent) (payload : NotificationPayload) :
  (forall body,
     http_NewRequest "POST" "https://api.pushover.net/1/messages.json" body
     = http_NewRequest' "POST" "https://api.pushover.net/1/messages.json" body) ->
  Settings (NewPushoverSender settings) = settings /\
  SendWith http_NewRequest client_Do (NewPushoverSender settings) event payload
  = SendWith http_NewRequest' client_Do (NewPushoverSender settings) event payload.
Proof.
  intros Hsame. split; [reflexivity|].
  unfold notification.Send, NewPushoverSender; cbn [baseUrl].
  rewrite Hsame. reflexivity.
Qed.

(** X10. [Send] does not ask whether the sender is enabled or the event
    wanted: whatever [Enabled] and [Events] are set to, it sends the same
    request and returns the same result.  The check is [CanSend]'s, and the
    caller's to make. *)
Theorem Send_ignores_Enabled_and_Events (s : pushoverSender)
    (enabled : bool) (events : list string)
    (event : NotificationEvent) (payload : NotificationPayload) :
  Send {| Settings := {| Enabled := enabled;
                         APIKey := APIKey (Settings s);
                         Token := Token (Settings s);
                         Priority := Priority (Settings s);
                         Events := events |};
          baseUrl := baseUrl s |} event payload
  = Send s event payload.
Proof. reflexivity. Qed.

(** X11. [Send] writes a line at error level exactly when it returns an
    error, and then exactly one; a nil return leaves a trace line and a debug
    line. *)
Theorem Send_error_iff_error_line (s : pushoverSender) (event : NotificationEvent)
    (payload : NotificationPayload) :
  let out := Send s event payload in
  (fst out = None <-> List.filter isErrorLine (snd out) = []) /\
  (fst out <> None -> length (List.filter isErrorLine (snd out)) = 1%nat) /\
  (fst out = None -> map fst (snd out) = [TraceLevel; DebugLevel]).
Proof.
  intros out; subst out. unfold notification.Send.
  destruct (http_NewRequest _ _ _) as [req|e1]; cbn [fst snd].
  2: { repeat split; try discriminate. }
  destruct (client_Do _) as [res|e2]; cbn [fst snd].
  2: { repeat split; try discriminate. }
  destruct (io_ReadAll _) as [body|e3]; cbn [fst snd].
  2: { repeat split; try discriminate. }
  destruct (negb (fst res =? http_StatusOK)%Z); cbn [fst snd];
    repeat split; try discriminate; try contradiction.
Qed.

(** X12. Which failure [Send] reports.  The stages fail in order and the
    first failure is the one returned, wrapping its cause: the request that
    cannot be built; else the request that cannot be made, in a message that
    quotes the request as it was sent, headers set; else the body
    that cannot be read, even when the status was 200; and only then the
    status, in an error that quotes the status code and the body. *)
Theorem Send_reports_first_failure (s : pushoverSender) (event : NotificationEvent)
    (payload : NotificationPayload) :
  let body := Values_Encode (sendData (sendMessage s event payload)) in
  let sent req := Header_Set "User-Agent" "autobrr"
                    (Header_Set "Content-Type" "application/x-www-form-urlencoded" req) in
  let out := Send s event payload in
  (forall e, http_NewRequest "POST" (baseUrl s) body = inr e ->
     fst out = Some (errors_Wrap e "could not create request")) /\
  (forall req e,
     http_NewRequest "POST" (baseUrl s) body = inl req ->
     client_Do (sent req) = inr e ->
     fst out = Some (errors_Wrap e ("could not make request: " +:+
                                    fmt_Request (sent req)))) /\
  (forall req res e,
     http_NewRequest "POST" (baseUrl s) body = inl req ->
     client_Do (sent req) = inl res ->
     io_ReadAll (snd res) = inr e ->
     fst out = Some (errors_Wrap e "could not read data")) /\
  (forall req res bytes,
     http_NewRequest "POST" (baseUrl s) body = inl req ->
     client_Do (sent req) = inl res ->
     io_ReadAll (snd res) = inl bytes ->
     fst res <> 200 ->
     fst out = Some (errors_New ("bad status: " +:+ pretty (fst res) +:+
                                 " body: " +:+ string_of_list_byte bytes))).
Proof.
  intros body sent out; subst body sent out. unfold notification.Send.
  split; [|split; [|split]].
  - intros e ->. reflexivity.
  - intros req e -> ->. reflexivity.
  - intros req res e -> -> ->. reflexivity.
  - intros req res bytes -> -> -> Hbad. unfold http_StatusOK.
    destruct (Z.eqb_spec (fst res) 200); [contradiction | reflexivity].
Qed.

(** X14. A sender that [CanSend] accepts sends real credentials: the form
    [Send] builds for it has a non-empty [token] and a non-empty [user]. *)
Theorem CanSend_form_has_credentials (s : pushoverSender)
    (event : NotificationEvent) (payload : NotificationPayload) :
  fst (CanSend s event) = true ->
  exists key user,
    key <> "" /\ user <> "" /\
    sendData (sendMessage s event payload) !! "token" = Some [key] /\
    sendData (sendMessage s event payload) !! "user" = Some [user].
Proof.
  intros Hcan.
  assert (He : fst (isEnabled s) = true).
  { unfold CanSend in Hcan. destruct (fst (isEnabled s)); [reflexivity|].
    discriminate Hcan. }
  apply isEnabled_true in He as (_ & Hk & Hu).
  exists (APIKey (Settings s)), (Token (Settings s)).
  split; [exact Hk|]. split; [exact Hu|].
  unfold notification.sendMessage, sendData, Values_Set;
    cbn [mToken mUser mMessage mPriority mTitle mTimestamp mHtml].
  destruct (Priority (Settings s) =? 2)%Z;
    split; rewrite !lookup_insert_ne by discriminate; apply lookup_insert_eq.
Qed.

End SendMore.


Lemma Send_asks_with_headers_witness :
  Send string (fun event => event) (fun payload => payload) 1698700000
       SimPushover.Encode SimPushover.NewRequest (list Byte.byte)
       (SimPushover.Do 200) SimPushover.ReadAll SimPushover.ShowRequest
       (SimPushover.sender 0) "PUSH_ERROR" "release failed"
  = Send string (fun event => event) (fun payload => payload) 1698700000
       SimPushover.Encode SimPushover.NewRequest (list Byte.byte)
       (SimPushover.DoChecked 200) SimPushover.ReadAll SimPushover.ShowRequest
       (SimPushover.sender 0) "PUSH_ERROR" "release failed".
Proof.
  apply Send_asks_with_headers.
  intros req Hct Hua. unfold SimPushover.Do, SimPushover.DoChecked.
  rewrite !decide_True by assumption. reflexivity.
Defined.

Lemma NewPushoverSender_posts_to_pushover_witness :
  Settings (NewPushoverSender (Settings (SimPushover.sender 2)))
  = Settings (SimPushover.sender 2) /\
  Send string (fun event => event) (fun payload => payload) 1698700000
       SimPushover.Encode SimPushover.NewRequest (list Byte.byte)
       (SimPushover.Do 200) SimPushover.ReadAll SimPushover.ShowRequest
       (NewPushoverSender (Settings (SimPushover.sender 2)))
       "PUSH_APPROVED" "release approved"
  = Send string (fun event => event) (fun payload => payload) 1698700000
       SimPushover.Encode SimPushover.NewRequestPushover (list Byte.byte)
       (SimPushover.Do 200) SimPushover.ReadAll SimPushover.ShowRequest
       (NewPushoverSender (Settings (SimPushover.sender 2)))
       "PUSH_APPROVED" "release approved".
Proof.
  apply NewPushoverSender_posts_to_pushover.
  intros body. reflexivity.
Defined.

Lemma CanSend_form_has_credentials_witness :
  exists key user,
    key <> "" /\ user <> "" /\
    sendData (sendMessage string (fun event => event) (fun payload => payload)
                1698700000 (SimPushover.sender 0) "PUSH_ERROR" "release failed")
      !! "token" = Some [key] /\
    sendData (sendMessage string (fun event => event) (fun payload => payload)
                1698700000 (SimPushover.sender 0) "PUSH_ERROR" "release failed")
      !! "user" = Some [user].
Proof.
  apply (CanSend_form_has_credentials string (fun event => event)
           (fun payload => payload) 1698700000
           (SimPushover.sender 0) "PUSH_ERROR" "release failed").
  reflexivity.
Defined.

(** A request for another endpoint would be told apart: the transport that
    serves Pushover only refuses it. *)
Example Send_elsewhere_is_refused :
  fst (Send string (fun event => event) (fun payload => payload) 1698700000
         SimPushover.Encode SimPushover.NewRequestPushover (list Byte.byte)
         (SimPushover.Do 200) SimPushover.ReadAll SimPushover.ShowRequest
         {| Settings := Settings (SimPushover.sender 0);
            baseUrl := "https://example.test/" |}
         "PUSH_APPROVED" "release approved")
  = Some (errors_Wrap (errors_New "unexpected request") "could not create request").
Proof. reflexivity. Qed.

(** A request that cannot be made is quoted in the error returned. *)
Example Send_unreachable_quotes_the_request :
  fst (Send string (fun event => event) (fun payload => payload) 1698700000
         SimPushover.Encode SimPushover.NewRequest (list Byte.byte)
         SimPushover.DoRefused SimPushover.ReadAll SimPushover.ShowRequest
         (SimPushover.sender 0) "PUSH_ERROR" "release failed")
  = Some (errors_Wrap (errors_New "connection refused")
            "could not make request: POST https://api.pushover.net/1/messages.json").
Proof. reflexivity. Qed.

End Pushover.
